(** * fs_mgr_format.c: identifying, probing and formatting a block device

    A shallow embedding of [fs_mgr/fs_mgr_format.c].  The pure scanning
    loops ([is_f2fs], [is_ext4]) are Rocq functions over the bytes of the
    probed block.  The code that talks to the kernel, to the ext4 builder
    and to the forked [mkfs.f2fs] child runs in a small trace monad: every
    call made to the outside is answered by an oracle ([OS]) that sees the
    whole history, and is appended, with its answer, to the trace.

    Conventions.
    - C integers are [Z]; where a C type can wrap, the wrap is written out
      ([uint32], [sint32], [sint64]).
    - The host is little-endian (every Android ABI is): a load of a
      [__le16]/[__le32] field assembles the bytes least significant first
      and [le32_to_cpu] is the identity.
    - A [string] is the content of a C string, up to its terminator.
    - Constants and layouts that come from headers outside this file
      ([cryptfs.h], [ext4.h], the board configuration, the signedness of
      plain [char]) are the variables of [Section Program]. *)

From Stdlib Require Import ZArith List String Ascii Bool Lia.
From Stdlib.Strings Require Import Byte.
From Stdlib Require Import DecimalString.
Import ListNotations.
Open Scope string_scope.
Open Scope list_scope.
Open Scope Z_scope.

(** ** Machine integers *)

Definition two_p32 : Z := 2 ^ 32.
Definition two_p64 : Z := 2 ^ 64.

(** [unsigned int] *)
Definition uint32 (z : Z) : Z := z mod two_p32.

(** [int] *)
Definition sint32 (z : Z) : Z := (z + 2 ^ 31) mod two_p32 - 2 ^ 31.

(** [off64_t] *)
Definition sint64 (z : Z) : Z := (z + 2 ^ 63) mod two_p64 - 2 ^ 63.

(** ** Bytes of a block *)

Definition byte_val (b : byte) : Z := Z.of_N (Byte.to_N b).

Definition byte_at (block : list byte) (off : Z) : Z :=
  if off <? 0 then 0 else byte_val (nth (Z.to_nat off) block x00).

(** Load of a [__le16] at byte offset [off]. *)
Definition le16_at (block : list byte) (off : Z) : Z :=
  Z.lor (byte_at block off) (Z.shiftl (byte_at block (off + 1)) 8).

(** Load of a [__le32] at byte offset [off]. *)
Definition le32_at (block : list byte) (off : Z) : Z :=
  Z.lor (Z.lor (byte_at block off) (Z.shiftl (byte_at block (off + 1)) 8))
        (Z.lor (Z.shiftl (byte_at block (off + 2)) 16)
               (Z.shiftl (byte_at block (off + 3)) 24)).

Definition le32_to_cpu (x : Z) : Z := x.

(** ** Constants of the file *)

Definition CRYPT_KEY_IN_FOOTER : string := "footer".
Definition CRYPT_MAGIC : Z := 0xD0B5B1C4.
Definition F2FS_SUPER_MAGIC : Z := 0xF2F52010.
Definition EXT4_SUPER_MAGIC : Z := 0xEF53.
Definition INVALID_BLOCK_SIZE : Z := -1.
Definition TOTAL_SECTORS : Z := 16.
Definition EINVAL : Z := 22.

(** ** C strings *)

Definition char_code (c : ascii) : Z := Z.of_N (N_of_ascii c).

Fixpoint strcmp (s1 s2 : string) : Z :=
  match s1, s2 with
  | EmptyString, EmptyString => 0
  | EmptyString, String c2 _ => 0 - char_code c2
  | String c1 _, EmptyString => char_code c1 - 0
  | String c1 r1, String c2 r2 =>
      if Ascii.eqb c1 c2 then strcmp r1 r2 else char_code c1 - char_code c2
  end.

Fixpoint strncmp (s1 s2 : string) (n : nat) : Z :=
  match n with
  | O => 0
  | S n' =>
      match s1, s2 with
      | EmptyString, EmptyString => 0
      | EmptyString, String c2 _ => 0 - char_code c2
      | String c1 _, EmptyString => char_code c1 - 0
      | String c1 r1, String c2 r2 =>
          if Ascii.eqb c1 c2 then strncmp r1 r2 n'
          else char_code c1 - char_code c2
      end
  end.

(** [s[0]]: the terminator when [s] is empty. *)
Definition first_char (s : string) : ascii :=
  match s with
  | EmptyString => zero
  | String c _ => c
  end.

(** No byte of the content is the terminator. *)
Definition c_string (s : string) : Prop :=
  ~ In zero (list_ascii_of_string s).

(** [snprintf(buf, size, "%d", v)]: the decimal digits of [v], cut to
    [size - 1] characters. *)
Definition snprintf_d (size : nat) (v : Z) : string :=
  substring 0 (size - 1) (NilZero.string_of_int (Z.to_int v)).

(** ** [sys/wait.h] *)

Definition WTERMSIG (s : Z) : Z := Z.land s 0x7f.
Definition WEXITSTATUS (s : Z) : Z := Z.shiftr (Z.land s 0xff00) 8.
Definition WIFEXITED (s : Z) : bool := WTERMSIG s =? 0.
Definition WIFSIGNALED (s : Z) : bool := 2 <=? WTERMSIG (s + 1).

(** ** The partition descriptor *)

Record fstab_rec : Type := mk_fstab_rec {
  blk_device : string;
  mount_point : string;
  fs_type : string;
  key_loc : option string;      (* [None] is the NULL pointer *)
  encryptable : bool
}.

(** Modelled from the spec: [fs_mgr_is_encryptable] is defined in another
    file of fs_mgr; the descriptor's [encryptable] field is its answer. *)
Definition fs_mgr_is_encryptable (fstab : fstab_rec) : bool :=
  encryptable fstab.

(** ** Calls to the outside, and their answers *)

Inductive open_flag : Type := O_RDONLY | O_RDWR.

Inductive log_level : Type := LOG_ERROR | LOG_INFO.

Inductive event : Type :=
| EvCalloc (size : Z) (ok : bool)
| EvFree
| EvOpen (path : string) (flag : open_flag) (fd : Z)
| EvBlkGetSize (fd : Z) (ret : Z) (sectors : Z)
| EvLseek64 (fd : Z) (off : Z) (ret : Z)
| EvRead (fd : Z) (count : nat) (got : option (list byte))
| EvWrite (fd : Z) (buf : list byte) (ret : Z)
| EvClose (fd : Z)
| EvResetExt4fsInfo
| EvMakeExt4fs (fd : Z) (info_len : Z) (mnt : string) (ret : Z)
| EvFork (ret : Z)
| EvExecv (path : string) (argv : list string) (replaced : bool)
| EvWaitpid (pid : Z) (ret : Z) (status : option Z)
| EvLog (lvl : log_level) (fmt : string).

Definition trace : Type := list event.

(** The environment.  Every answer may depend on all that happened before.
    - [os_read] answers [None] for -1, or the bytes transferred;
    - [os_waitpid] answers the returned pid and the status it stored, if any;
    - [os_execv] answers whether the image was replaced ([false]: it
      returned -1);
    - [os_fork] answers what [fork] returns in the process that runs the
      code: 0 in the child. *)
Record OS : Type := mk_OS {
  os_calloc : trace -> Z -> bool;
  os_open : trace -> string -> open_flag -> Z;
  os_blkgetsize : trace -> Z -> Z * Z;
  os_lseek64 : trace -> Z -> Z -> Z;
  os_read : trace -> Z -> nat -> option (list byte);
  os_write : trace -> Z -> list byte -> Z;
  os_make_ext4fs : trace -> Z -> Z -> string -> Z;
  os_fork : trace -> Z;
  os_execv : trace -> string -> list string -> bool;
  os_waitpid : trace -> Z -> Z * option Z
}.

(** How a call of one of the functions ends. *)
Inductive outcome : Type :=
| Returns (rc : Z)     (* back to the caller with [rc] *)
| Exits (code : Z)     (* the process called [exit] *)
| Replaced             (* [execv] took over the process *)
| Undefined.           (* a NULL pointer was dereferenced *)

(** ** The trace monad *)

Definition M (A : Type) : Type := trace -> A * trace.

Definition pure {A : Type} (a : A) : M A := fun tr => (a, tr).

Definition bind {A B : Type} (m : M A) (k : A -> M B) : M B :=
  fun tr => let (a, tr') := m tr in k a tr'.

Definition emit (ev : event) : M unit := fun tr => (tt, tr ++ [ev]).

Declare Scope fsm_scope.
Delimit Scope fsm_scope with fsm.
Notation "x <- m ;; k" := (bind m (fun x => k))
  (at level 61, m at next level, right associativity) : fsm_scope.
Notation "m ;;; k" := (bind m (fun _ => k))
  (at level 61, right associativity) : fsm_scope.
Open Scope fsm_scope.

(** A fresh call: result and trace of [m] started on the empty history. *)
Definition result_of {A : Type} (m : M A) : A := fst (m []).
Definition trace_of {A : Type} (m : M A) : trace := snd (m []).

(** ** Predicates on events *)

Definition is_log (ev : event) : bool :=
  match ev with EvLog _ _ => true | _ => false end.

Definition is_f2fs_subprocess (ev : event) : bool :=
  match ev with
  | EvFork _ | EvExecv _ _ _ | EvWaitpid _ _ _ => true
  | _ => false
  end.

Definition is_ext4_builder (ev : event) : bool :=
  match ev with
  | EvResetExt4fsInfo | EvMakeExt4fs _ _ _ _ => true
  | _ => false
  end.

Definition is_waitpid (ev : event) : bool :=
  match ev with EvWaitpid _ _ _ => true | _ => false end.

(** Number of [waitpid] calls in a history. *)
Definition nwaits (tr : trace) : nat := List.length (filter is_waitpid tr).

(** ** Environments for the worked examples *)

(** A machine with one block device: [m_sectors] sectors; every read
    yields [m_data]; a seek answers its offset, or -1 below zero; a write
    answers the length written, or -1 when [m_write_ok] is off; the ext4
    builder answers [m_builder_rc]; [fork] answers [m_fork]; the successive
    calls of [waitpid] answer [m_waits], then -1. *)
Record machine : Type := mk_machine {
  m_sectors : Z;
  m_data : list byte;
  m_write_ok : bool;
  m_builder_rc : Z;
  m_fork : Z;
  m_waits : list (Z * option Z)
}.

Definition os_of (m : machine) : OS :=
  {| os_calloc := fun _ _ => true;
     os_open := fun _ _ _ => 3;
     os_blkgetsize := fun _ _ => (0, m_sectors m);
     os_lseek64 := fun _ _ off => if off <? 0 then -1 else off;
     os_read := fun _ _ _ => Some (m_data m);
     os_write := fun _ _ buf =>
       if m_write_ok m then Z.of_nat (List.length buf) else -1;
     os_make_ext4fs := fun _ _ _ _ => m_builder_rc m;
     os_fork := fun _ => m_fork m;
     os_execv := fun _ _ _ => true;
     os_waitpid := fun tr _ => nth (nwaits tr) (m_waits m) (-1, None) |}.

(** [0xD0B5B1C4], [0xF2F52010] and [0xEF53] as they lie on disk. *)
Definition crypt_magic_bytes : list byte := [xc4; xb1; xb5; xd0].
Definition f2fs_magic_bytes : list byte := [x10; x20; xf5; xf2].
Definition ext4_magic_bytes : list byte := [x53; xef].

(** 8192 bytes with the f2fs magic at the start of sector 2. *)
Definition f2fs_block : list byte :=
  repeat x00 (Z.to_nat 1024) ++ f2fs_magic_bytes
  ++ repeat x00 (Z.to_nat 7164).

(** 8192 bytes with the ext4 magic at offset 0x38 of the second 1024-byte
    structure. *)
Definition ext4_block : list byte :=
  repeat x00 (Z.to_nat 1080) ++ ext4_magic_bytes
  ++ repeat x00 (Z.to_nat 7110).

Definition blank_block : list byte := repeat x00 (Z.to_nat 8192).

(** A 1 MiB device (2048 sectors), everything succeeds. *)
Definition machine_1MiB : machine :=
  {| m_sectors := 2048; m_data := crypt_magic_bytes; m_write_ok := true;
     m_builder_rc := 0; m_fork := 77; m_waits := [(77, Some 0)] |}.

(** The same device, on which the write of the footer fails. *)
Definition machine_write_fails : machine :=
  {| m_sectors := 2048; m_data := crypt_magic_bytes; m_write_ok := false;
     m_builder_rc := 0; m_fork := 77; m_waits := [(77, Some 0)] |}.

(** A 4 KiB device (8 sectors): smaller than the footer region. *)
Definition machine_4KiB : machine :=
  {| m_sectors := 8; m_data := crypt_magic_bytes; m_write_ok := true;
     m_builder_rc := 0; m_fork := 77; m_waits := [(77, Some 0)] |}.

(** Devices that start with [f2fs_block], [ext4_block], [blank_block]. *)
Definition machine_f2fs : machine :=
  {| m_sectors := 2048; m_data := f2fs_block; m_write_ok := true;
     m_builder_rc := 0; m_fork := 77; m_waits := [(77, Some 0)] |}.

Definition machine_ext4 : machine :=
  {| m_sectors := 2048; m_data := ext4_block; m_write_ok := true;
     m_builder_rc := 0; m_fork := 77; m_waits := [(77, Some 0)] |}.

(** The child is killed by signal 9, then is gone. *)
Definition machine_child_killed : machine :=
  {| m_sectors := 2048; m_data := blank_block; m_write_ok := true;
     m_builder_rc := 0; m_fork := 77; m_waits := [(77, Some 9)] |}.

(** The child exits with status 1: the stored status is [1 << 8]. *)
Definition machine_child_fails : machine :=
  {| m_sectors := 2048; m_data := blank_block; m_write_ok := true;
     m_builder_rc := 0; m_fork := 77; m_waits := [(77, Some 256)] |}.

(** The process that runs the code is the forked child. *)
Definition machine_in_child : machine :=
  {| m_sectors := 2048; m_data := blank_block; m_write_ok := true;
     m_builder_rc := 0; m_fork := 0; m_waits := [] |}.

(** [fork] fails, and there is no child to wait for. *)
Definition machine_fork_fails : machine :=
  {| m_sectors := 2048; m_data := blank_block; m_write_ok := true;
     m_builder_rc := 0; m_fork := -1; m_waits := [] |}.





(** Values of the outside constants on the devices this code ships on:
    [CRYPT_FOOTER_OFFSET] is 0x4000, a [struct ext4_super_block] has 1024
    bytes with [s_magic] at 0x38. *)
Definition footer_offset_0x4000 : Z := 0x4000.
Definition crypt_mnt_ftr_bytes : nat := Z.to_nat 2048.
Definition ext4_super_block_bytes : positive := 1024.
Definition s_magic_at : Z := 0x38.

Definition data_ext4_footer : fstab_rec :=
  {| blk_device := "/dev/block/userdata"; mount_point := "/data";
     fs_type := "ext4"; key_loc := Some "footer"; encryptable := true |}.

Definition data_f2fs_plain : fstab_rec :=
  {| blk_device := "/dev/block/userdata"; mount_point := "/data";
     fs_type := "f2fs"; key_loc := None; encryptable := false |}.

Definition data_f2fs_footer : fstab_rec :=
  {| blk_device := "/dev/block/userdata"; mount_point := "/data";
     fs_type := "f2fs"; key_loc := Some "footer"; encryptable := true |}.

Definition data_keyfile : fstab_rec :=
  {| blk_device := "/dev/block/userdata"; mount_point := "/data";
     fs_type := "ext4"; key_loc := Some "/dev/block/metadata";
     encryptable := true |}.

Definition data_odd_key : fstab_rec :=
  {| blk_device := "/dev/block/userdata"; mount_point := "/data";
     fs_type := "ext4"; key_loc := Some ""; encryptable := true |}.

Definition cache_xfs : fstab_rec :=
  {| blk_device := "/dev/block/cache"; mount_point := "/cache";
     fs_type := "xfs"; key_loc := None; encryptable := false |}.

(** ** The program *)

Section Program.

(** [CRYPT_FOOTER_OFFSET] and [sizeof(struct crypt_mnt_ftr)], from
    [cryptfs.h]. *)
Variable CRYPT_FOOTER_OFFSET : Z.
Variable sizeof_crypt_mnt_ftr : nat.

(** [sizeof(struct ext4_super_block)] and the byte offset of its [__le16]
    field [s_magic], from [ext4.h]. *)
Variable sizeof_ext4_super_block : positive.
Variable offsetof_s_magic : Z.

(** [BOARD_USERIMAGE_BLOCK_SIZE], when the board defines it. *)
Variable BOARD_USERIMAGE_BLOCK_SIZE : option Z.

(** Whether plain [char] is signed on the target. *)
Variable char_is_signed : bool.

Variable os : OS.

(** *** System calls *)

Definition sys_calloc (size : Z) : M bool :=
  fun tr => let ok := os_calloc os tr size in (ok, tr ++ [EvCalloc size ok]).

Definition sys_free : M unit := emit EvFree.

Definition sys_open (path : string) (flag : open_flag) : M Z :=
  fun tr => let fd := os_open os tr path flag in
            (fd, tr ++ [EvOpen path flag fd]).

(** [ioctl(fd, BLKGETSIZE, &sectors)], [sectors] an [unsigned int]. *)
Definition sys_ioctl_BLKGETSIZE (fd : Z) : M (Z * Z) :=
  fun tr => let (r, n) := os_blkgetsize os tr fd in
            ((r, uint32 n), tr ++ [EvBlkGetSize fd r (uint32 n)]).

Definition sys_lseek64 (fd off : Z) : M Z :=
  fun tr => let r := os_lseek64 os tr fd off in
            (r, tr ++ [EvLseek64 fd off r]).

(** [read(fd, buf, count)]: at most [count] bytes arrive. *)
Definition sys_read (fd : Z) (count : nat) : M (option (list byte)) :=
  fun tr => let got := option_map (firstn count) (os_read os tr fd count) in
            (got, tr ++ [EvRead fd count got]).

Definition sys_write (fd : Z) (buf : list byte) : M Z :=
  fun tr => let r := os_write os tr fd buf in
            (r, tr ++ [EvWrite fd buf r]).

Definition sys_close (fd : Z) : M unit := emit (EvClose fd).

Definition reset_ext4fs_info : M unit := emit EvResetExt4fsInfo.

(** [make_ext4fs_internal(fd, NULL, NULL, mnt, 0, ...)], run with the global
    [info.len] set to [info_len]. *)
Definition make_ext4fs_internal (fd info_len : Z) (mnt : string) : M Z :=
  fun tr => let r := os_make_ext4fs os tr fd info_len mnt in
            (r, tr ++ [EvMakeExt4fs fd info_len mnt r]).

Definition sys_fork : M Z :=
  fun tr => let r := os_fork os tr in (r, tr ++ [EvFork r]).

Definition sys_execv (path : string) (argv : list string) : M bool :=
  fun tr => let b := os_execv os tr path argv in
            (b, tr ++ [EvExecv path argv b]).

Definition sys_waitpid (pid : Z) : M (Z * option Z) :=
  fun tr => let (p, st) := os_waitpid os tr pid in
            ((p, st), tr ++ [EvWaitpid pid p st]).

Definition ERROR (fmt : string) : M unit := emit (EvLog LOG_ERROR fmt).
Definition INFO (fmt : string) : M unit := emit (EvLog LOG_INFO fmt).

(** *** fs_mgr_is_partition_encrypted *)

(** The code after the label [out] (lines 85-89). *)
Definition encrypted_out (fd ret : Z) : M outcome :=
  (if 0 <=? fd then sys_close fd else pure tt) ;;;
  pure (Returns ret).

(** Lines 75-83: read the magic through [fd] and compare. *)
Definition encrypted_read_magic (fd : Z) : M outcome :=
  got <- sys_read fd 4 ;;
  match got with
  | None => encrypted_out fd 0
  | Some bytes =>
      if negb (Nat.eqb (List.length bytes) 4) then encrypted_out fd 0
      else
        let crypt_magic := le32_at bytes 0 in
        if negb (crypt_magic =? CRYPT_MAGIC) then encrypted_out fd 0
        else encrypted_out fd 1
  end.

Definition fs_mgr_is_partition_encrypted (fstab : fstab_rec) : M outcome :=
  if negb (fs_mgr_is_encryptable fstab) then pure (Returns 0)
  else
    match key_loc fstab with
    | None => pure Undefined
    | Some kl =>
        if Ascii.eqb (first_char kl) "/"%char then
          fd <- sys_open kl O_RDWR ;;
          if fd <? 0 then encrypted_out fd 0
          else encrypted_read_magic fd
        else if strcmp kl CRYPT_KEY_IN_FOOTER =? 0 then
          fd <- sys_open (blk_device fstab) O_RDWR ;;
          if fd <? 0 then encrypted_out fd 0
          else
            rs <- sys_ioctl_BLKGETSIZE fd ;;
            let (r, sectors) := rs in
            if r =? -1 then encrypted_out fd 0
            else
              let offset := sint64 (sint64 (sectors * 512)
                                    - CRYPT_FOOTER_OFFSET) in
              r <- sys_lseek64 fd offset ;;
              if r =? -1 then encrypted_out fd 0
              else encrypted_read_magic fd
        else encrypted_out (-1) 0
    end.

(** *** is_f2fs, is_ext4 *)

(** The loop of [is_f2fs] with [n] sectors left to look at, at sector [i]. *)
Fixpoint is_f2fs_from (n : nat) (i : Z) (block : list byte) : Z :=
  match n with
  | O => 0
  | S n' =>
      if le32_to_cpu (le32_at block (i * 512)) =? F2FS_SUPER_MAGIC then 1
      else is_f2fs_from n' (i + 1) block
  end.

Definition is_f2fs (block : list byte) : Z :=
  is_f2fs_from (Z.to_nat TOTAL_SECTORS) 0 block.

(** The loop of [is_ext4]: [i] is the counter, [sb] the byte offset of the
    pointer [sb] into [block].  [None]: the fuel ran out. *)
Fixpoint is_ext4_from (fuel : nat) (i sb : Z) (block : list byte)
  : option Z :=
  match fuel with
  | O => None
  | S fuel' =>
      if i <? TOTAL_SECTORS * 512 then
        if le32_to_cpu (le16_at block (sb + offsetof_s_magic))
           =? EXT4_SUPER_MAGIC
        then Some 1
        else is_ext4_from fuel' (i + Z.pos sizeof_ext4_super_block)
                          (sb + Z.pos sizeof_ext4_super_block) block
      else Some 0
  end.

(** One more than the most iterations the loop can make. *)
Definition is_ext4_fuel : nat := S (Z.to_nat (TOTAL_SECTORS * 512)).

Definition is_ext4 (block : list byte) : option Z :=
  is_ext4_from is_ext4_fuel 0 0 block.

(** *** fs_mgr_identify_fs *)

(** [char rc = -1], widened to the [int] that is returned. *)
Definition char_minus_one : Z := if char_is_signed then -1 else 255.

(** The condition of lines 146-147; [None] when [is_ext4] does not answer. *)
Definition identify_matches (fstype : string) (block : list byte)
  : option bool :=
  if (strncmp fstype "f2fs" 4 =? 0) && negb (is_f2fs block =? 0)
  then Some true
  else if strncmp fstype "ext4" 4 =? 0 then
    match is_ext4 block with
    | Some r => Some (negb (r =? 0))
    | None => None
    end
  else Some false.

(** The code after the label [out] (lines 151-161). *)
Definition identify_out (fstab : fstab_rec) (fd : Z) (block : bool) (rc : Z)
  : M Z :=
  (if 0 <=? fd then sys_close fd else pure tt) ;;;
  (if block then sys_free else pure tt) ;;;
  (if negb (rc =? 0)
   then ERROR "Did not recognize file system type '%s' on %s\n"
   else pure tt) ;;;
  pure rc.

Definition fs_mgr_identify_fs (fstab : fstab_rec) : M (option Z) :=
  let rc := char_minus_one in
  block <- sys_calloc (TOTAL_SECTORS * 512) ;;
  if negb block then rc <- identify_out fstab (-1) false rc ;; pure (Some rc)
  else
    fd <- sys_open (blk_device fstab) O_RDONLY ;;
    if fd <? 0 then rc <- identify_out fstab fd true rc ;; pure (Some rc)
    else
      got <- sys_read fd (Z.to_nat (TOTAL_SECTORS * 512)) ;;
      match got with
      | None => rc <- identify_out fstab fd true rc ;; pure (Some rc)
      | Some data =>
          if negb (Z.of_nat (List.length data) =? TOTAL_SECTORS * 512)
          then rc <- identify_out fstab fd true rc ;; pure (Some rc)
          else
            match identify_matches (fs_type fstab) data with
            | None => pure None
            | Some true =>
                rc <- identify_out fstab fd true 0 ;; pure (Some rc)
            | Some false =>
                rc <- identify_out fstab fd true rc ;; pure (Some rc)
            end
      end.

(** *** format_ext4 *)

(** Lines 169-185: the block size is checked, logged, and not used again. *)
Definition check_fs_blksize : M unit :=
  let fs_blksize :=
    match BOARD_USERIMAGE_BLOCK_SIZE with
    | Some b => b
    | None => INVALID_BLOCK_SIZE
    end in
  if negb (fs_blksize =? INVALID_BLOCK_SIZE)
     && (negb (fs_blksize =? 1024) && negb (fs_blksize =? 2048)
         && negb (fs_blksize =? 4096))
  then ERROR "Block size '%ld' not supported; using default\n"
  else pure tt.

(** The zeroed [struct crypt_mnt_ftr]. *)
Definition zeroed_crypt_ftr : list byte := repeat x00 sizeof_crypt_mnt_ftr.

(** Lines 199-211; [Some rc] is the early [return rc]. *)
Definition wipe_crypto_footer (fd off : Z) : M (option Z) :=
  INFO "Wiping old crypto info.\n" ;;;
  let off := sint64 (off - CRYPT_FOOTER_OFFSET) in
  r <- sys_lseek64 fd off ;;
  if r =? -1 then
    ERROR "Cannot seek to real block device footer.  %s\n" ;;;
    sys_close fd ;;;
    pure (Some (-1))
  else
    sys_write fd zeroed_crypt_ftr ;;;
    pure None.

Definition format_ext4 (fs_blkdev fs_mnt_point : string) (needs_footer : bool)
  : M Z :=
  check_fs_blksize ;;;
  fd <- sys_open fs_blkdev O_RDWR ;;
  if fd <? 0 then
    ERROR "Cannot open block device.  %s\n" ;;;
    pure (-1)
  else
    rs <- sys_ioctl_BLKGETSIZE fd ;;
    let (r, nr_sec) := rs in
    if r =? -1 then
      ERROR "Cannot get block device size.  %s\n" ;;;
      sys_close fd ;;;
      pure (-1)
    else
      let off := sint64 (nr_sec * 512) in
      early <- (if needs_footer then wipe_crypto_footer fd off
                else pure None) ;;
      match early with
      | Some rc => pure rc
      | None =>
          sys_close fd ;;;
          reset_ext4fs_info ;;;
          let info_len := sint64 (nr_sec * 512) in
          rc <- make_ext4fs_internal fd info_len fs_mnt_point ;;
          (if negb (rc =? 0) then ERROR "make_ext4fs returned %d.\n"
           else pure tt) ;;;
          sys_close fd ;;;
          pure rc
      end.

(** *** format_f2fs *)

Definition mkfs_f2fs : string := "/sbin/mkfs.f2fs".

(** [args[0..3]] of lines 234-241. *)
Definition format_f2fs_args (fs_blkdev : string) (needs_footer : bool)
  : list string :=
  let footer := sint32 (if needs_footer then CRYPT_FOOTER_OFFSET else 0) in
  let footer_size := snprintf_d 10 footer in
  [mkfs_f2fs; "-r"; footer_size; fs_blkdev].

(** What [waitpid(pid, &rc, 0)] leaves in [rc]. *)
Definition stored_status (rc : Z) (status : option Z) : Z :=
  match status with
  | Some s => s
  | None => rc
  end.

(** The loop of lines 247-263; [None]: the fuel ran out. *)
Fixpoint f2fs_wait (fuel : nat) (pid rc : Z) : M (option Z) :=
  match fuel with
  | O => pure None
  | S fuel' =>
      w <- sys_waitpid pid ;;
      let (p, status) := w in
      let rc := stored_status rc status in
      if negb (p =? pid) then
        ERROR "Error waiting for child process - %d\n" ;;;
        pure (Some (-1))
      else if WIFEXITED rc then
        let rc := WEXITSTATUS rc in
        INFO "%s done, status %d\n" ;;;
        pure (Some (if negb (rc =? 0) then -1 else rc))
      else
        ERROR "Still waiting for %s...\n" ;;;
        f2fs_wait fuel' pid rc
  end.

Definition format_f2fs (fuel : nat) (fs_blkdev : string) (needs_footer : bool)
  : M (option outcome) :=
  let rc := 0 in
  let args := format_f2fs_args fs_blkdev needs_footer in
  pid <- sys_fork ;;
  if pid =? 0 then
    replaced <- sys_execv mkfs_f2fs args ;;
    if replaced then pure (Some Replaced) else pure (Some (Exits 1))
  else
    r <- f2fs_wait fuel pid rc ;;
    pure (option_map Returns r).

(** *** fs_mgr_do_format *)

Definition needs_footer_of (fstab : fstab_rec) : bool :=
  match key_loc fstab with
  | Some kl => strcmp kl CRYPT_KEY_IN_FOOTER =? 0
  | None => false
  end.

Definition fs_mgr_do_format (fuel : nat) (fstab : fstab_rec)
  : M (option outcome) :=
  let rc := - EINVAL in
  let needs_footer := needs_footer_of fstab in
  ERROR "Formatting %s as '%s'%s.\n" ;;;
  if strncmp (fs_type fstab) "f2fs" 4 =? 0 then
    format_f2fs fuel (blk_device fstab) needs_footer
  else if strncmp (fs_type fstab) "ext4" 4 =? 0 then
    rc <- format_ext4 (blk_device fstab) (mount_point fstab) needs_footer ;;
    pure (Some (Returns rc))
  else
    ERROR "File system type '%s' is not supported\n" ;;;
    pure (Some (Returns rc)).

(** ** Notions used in the statements *)

(** Whether what [read] delivered is the four bytes of the magic. *)
Definition magic_was_read (got : option (list byte)) : bool :=
  match got with
  | Some bytes =>
      Nat.eqb (List.length bytes) 4 && (le32_at bytes 0 =? CRYPT_MAGIC)
  | None => false
  end.

Definition close_if_open (fd : Z) : trace :=
  if 0 <=? fd then [EvClose fd] else [].

(** What the code after [out] in [fs_mgr_identify_fs] adds to the history. *)
Definition identify_out_events (fd : Z) (block : bool) (rc : Z) : trace :=
  close_if_open fd
  ++ (if block then [EvFree] else [])
  ++ (if negb (rc =? 0)
      then [EvLog LOG_ERROR
                  "Did not recognize file system type '%s' on %s\n"]
      else []).

(** What [check_fs_blksize] adds to the history. *)
Definition blksize_events : trace := snd (check_fs_blksize []).

(** What line 220-222 adds to the history. *)
Definition builder_log (rc : Z) : trace :=
  if negb (rc =? 0) then [EvLog LOG_ERROR "make_ext4fs returned %d.\n"]
  else [].

(** The five ways through [format_ext4]: the value returned and the calls
    made, with the answers they got. *)
Inductive format_ext4_run (blk mnt : string)
  : bool -> Z -> trace -> Prop :=
| Ext4OpenFails (nf : bool) (fd : Z) :
    fd < 0 ->
    format_ext4_run blk mnt nf (-1)
      (blksize_events
       ++ [EvOpen blk O_RDWR fd;
           EvLog LOG_ERROR "Cannot open block device.  %s\n"])
| Ext4SizeFails (nf : bool) (fd nr : Z) :
    0 <= fd ->
    format_ext4_run blk mnt nf (-1)
      (blksize_events
       ++ [EvOpen blk O_RDWR fd; EvBlkGetSize fd (-1) nr;
           EvLog LOG_ERROR "Cannot get block device size.  %s\n";
           EvClose fd])
| Ext4SeekFails (fd r nr : Z) :
    0 <= fd -> r <> -1 -> 0 <= nr < two_p32 ->
    format_ext4_run blk mnt true (-1)
      (blksize_events
       ++ [EvOpen blk O_RDWR fd; EvBlkGetSize fd r nr;
           EvLog LOG_INFO "Wiping old crypto info.\n";
           EvLseek64 fd (sint64 (nr * 512 - CRYPT_FOOTER_OFFSET)) (-1);
           EvLog LOG_ERROR "Cannot seek to real block device footer.  %s\n";
           EvClose fd])
| Ext4BuiltAfterWipe (fd r nr r' w rc : Z) :
    0 <= fd -> r <> -1 -> 0 <= nr < two_p32 -> r' <> -1 ->
    format_ext4_run blk mnt true rc
      (blksize_events
       ++ [EvOpen blk O_RDWR fd; EvBlkGetSize fd r nr;
           EvLog LOG_INFO "Wiping old crypto info.\n";
           EvLseek64 fd (sint64 (nr * 512 - CRYPT_FOOTER_OFFSET)) r';
           EvWrite fd zeroed_crypt_ftr w;
           EvClose fd; EvResetExt4fsInfo;
           EvMakeExt4fs fd (nr * 512) mnt rc]
       ++ builder_log rc ++ [EvClose fd])
| Ext4Built (fd r nr rc : Z) :
    0 <= fd -> r <> -1 -> 0 <= nr < two_p32 ->
    format_ext4_run blk mnt false rc
      (blksize_events
       ++ [EvOpen blk O_RDWR fd; EvBlkGetSize fd r nr;
           EvClose fd; EvResetExt4fsInfo;
           EvMakeExt4fs fd (nr * 512) mnt rc]
       ++ builder_log rc ++ [EvClose fd]).

(** The answers [waitpid] gave, in order. *)
Definition wait_answers (tr : trace) : list (Z * option Z) :=
  flat_map (fun ev => match ev with
                      | EvWaitpid _ p st => [(p, st)]
                      | _ => []
                      end) tr.

(** The answer [w] of [waitpid] reports the child [pid] as still there: the
    returned pid is the child's and the status left in [rc] is not that of
    an exit.  It is the condition under which the loop goes round again. *)
Definition still_waiting (pid rc : Z) (w : Z * option Z) : bool :=
  (fst w =? pid) && negb (WIFEXITED (stored_status rc (snd w))).

(** What one round of the loop adds to the history when it ends it. *)
Definition wait_failed_events (pid : Z) (w : Z * option Z) : trace :=
  [EvWaitpid pid (fst w) (snd w);
   EvLog LOG_ERROR "Error waiting for child process - %d\n"].

Definition wait_done_events (pid : Z) (w : Z * option Z) : trace :=
  [EvWaitpid pid (fst w) (snd w); EvLog LOG_INFO "%s done, status %d\n"].

Definition wait_again_events (pid : Z) (w : Z * option Z) : trace :=
  [EvWaitpid pid (fst w) (snd w);
   EvLog LOG_ERROR "Still waiting for %s...\n"].

(** The overall status for the exit status of the child. *)
Definition exit_status_to_rc (status : Z) : Z :=
  if WEXITSTATUS status =? 0 then 0 else -1.

(** The descriptors that [open] delivered, and those given to [close], in
    order. *)
Definition opened_fds (tr : trace) : list Z :=
  flat_map (fun ev => match ev with
                      | EvOpen _ _ fd => if 0 <=? fd then [fd] else []
                      | _ => []
                      end) tr.

Definition closed_fds (tr : trace) : list Z :=
  flat_map (fun ev => match ev with
                      | EvClose fd => [fd]
                      | _ => []
                      end) tr.

(** The calls a probe of the device may make: it opens, asks for the size,
    seeks, reads and closes. *)
Definition is_probe_call (ev : event) : bool :=
  match ev with
  | EvOpen _ _ _ | EvBlkGetSize _ _ _ | EvLseek64 _ _ _ | EvRead _ _ _
  | EvClose _ => true
  | _ => false
  end.

(** The ways through [fs_mgr_is_partition_encrypted]. *)
Inductive encrypted_run (fstab : fstab_rec) : outcome -> trace -> Prop :=
| EncNotEncryptable :
    fs_mgr_is_encryptable fstab = false ->
    encrypted_run fstab (Returns 0) []
| EncNullKey :
    fs_mgr_is_encryptable fstab = true -> key_loc fstab = None ->
    encrypted_run fstab Undefined []
| EncFileOpenFails (kl : string) (fd : Z) :
    key_loc fstab = Some kl -> first_char kl = "/"%char -> fd < 0 ->
    encrypted_run fstab (Returns 0) [EvOpen kl O_RDWR fd]
| EncFileRead (kl : string) (fd : Z) (got : option (list byte)) :
    key_loc fstab = Some kl -> first_char kl = "/"%char -> 0 <= fd ->
    encrypted_run fstab (Returns (if magic_was_read got then 1 else 0))
      [EvOpen kl O_RDWR fd; EvRead fd 4 got; EvClose fd]
| EncFooterOpenFails (kl : string) (fd : Z) :
    key_loc fstab = Some kl -> strcmp kl CRYPT_KEY_IN_FOOTER = 0 -> fd < 0 ->
    encrypted_run fstab (Returns 0) [EvOpen (blk_device fstab) O_RDWR fd]
| EncFooterSizeFails (kl : string) (fd nr : Z) :
    key_loc fstab = Some kl -> strcmp kl CRYPT_KEY_IN_FOOTER = 0 -> 0 <= fd ->
    encrypted_run fstab (Returns 0)
      [EvOpen (blk_device fstab) O_RDWR fd; EvBlkGetSize fd (-1) nr;
       EvClose fd]
| EncFooterSeekFails (kl : string) (fd r nr : Z) :
    key_loc fstab = Some kl -> strcmp kl CRYPT_KEY_IN_FOOTER = 0 -> 0 <= fd ->
    r <> -1 -> 0 <= nr < two_p32 ->
    encrypted_run fstab (Returns 0)
      [EvOpen (blk_device fstab) O_RDWR fd; EvBlkGetSize fd r nr;
       EvLseek64 fd (sint64 (nr * 512 - CRYPT_FOOTER_OFFSET)) (-1);
       EvClose fd]
| EncFooterRead (kl : string) (fd r nr r' : Z) (got : option (list byte)) :
    key_loc fstab = Some kl -> strcmp kl CRYPT_KEY_IN_FOOTER = 0 -> 0 <= fd ->
    r <> -1 -> 0 <= nr < two_p32 -> r' <> -1 ->
    encrypted_run fstab (Returns (if magic_was_read got then 1 else 0))
      [EvOpen (blk_device fstab) O_RDWR fd; EvBlkGetSize fd r nr;
       EvLseek64 fd (sint64 (nr * 512 - CRYPT_FOOTER_OFFSET)) r';
       EvRead fd 4 got; EvClose fd]
| EncUnlistedKey (kl : string) :
    key_loc fstab = Some kl -> first_char kl <> "/"%char ->
    strcmp kl CRYPT_KEY_IN_FOOTER <> 0 ->
    encrypted_run fstab (Returns 0) [].

(** The line [fs_mgr_identify_fs] logs when it does not return 0. *)
Definition identify_log : event :=
  EvLog LOG_ERROR "Did not recognize file system type '%s' on %s\n".

(** The ways through [fs_mgr_identify_fs]. *)
Inductive identify_run (fstab : fstab_rec) : Z -> trace -> Prop :=
| IdNoMemory :
    identify_run fstab char_minus_one
      [EvCalloc (TOTAL_SECTORS * 512) false; identify_log]
| IdOpenFails (fd : Z) :
    fd < 0 ->
    identify_run fstab char_minus_one
      [EvCalloc (TOTAL_SECTORS * 512) true;
       EvOpen (blk_device fstab) O_RDONLY fd; EvFree; identify_log]
| IdReadFails (fd : Z) (got : option (list byte)) :
    0 <= fd ->
    (forall data, got = Some data -> List.length data <> Z.to_nat 8192) ->
    identify_run fstab char_minus_one
      [EvCalloc (TOTAL_SECTORS * 512) true;
       EvOpen (blk_device fstab) O_RDONLY fd;
       EvRead fd (Z.to_nat 8192) got; EvClose fd; EvFree; identify_log]
| IdMatch (fd : Z) (data : list byte) :
    0 <= fd -> List.length data = Z.to_nat 8192 ->
    identify_matches (fs_type fstab) data = Some true ->
    identify_run fstab 0
      [EvCalloc (TOTAL_SECTORS * 512) true;
       EvOpen (blk_device fstab) O_RDONLY fd;
       EvRead fd (Z.to_nat 8192) (Some data); EvClose fd; EvFree]
| IdNoMatch (fd : Z) (data : list byte) :
    0 <= fd -> List.length data = Z.to_nat 8192 ->
    identify_matches (fs_type fstab) data = Some false ->
    identify_run fstab char_minus_one
      [EvCalloc (TOTAL_SECTORS * 512) true;
       EvOpen (blk_device fstab) O_RDONLY fd;
       EvRead fd (Z.to_nat 8192) (Some data); EvClose fd; EvFree;
       identify_log].

Definition is_free (ev : event) : bool :=
  match ev with EvFree => true | _ => false end.

Definition is_calloc_ok (ev : event) : bool :=
  match ev with EvCalloc _ true => true | _ => false end.

Definition is_open (ev : event) : bool :=
  match ev with EvOpen _ _ _ => true | _ => false end.

Definition is_make_ext4fs (ev : event) : bool :=
  match ev with EvMakeExt4fs _ _ _ _ => true | _ => false end.

(** What touches the content of the device before a builder runs: a seek
    or a write. *)
Definition is_wipe_call (ev : event) : bool :=
  match ev with EvLseek64 _ _ _ | EvWrite _ _ _ => true | _ => false end.

Definition is_write (ev : event) : bool :=
  match ev with EvWrite _ _ _ => true | _ => false end.

(** The calls [fs_mgr_identify_fs] may make. *)
Definition is_identify_call (ev : event) : bool :=
  match ev with
  | EvCalloc _ _ | EvFree | EvOpen _ O_RDONLY _ | EvRead _ _ _ | EvClose _
  | EvLog _ _ => true
  | _ => false
  end.

(** The ext4 superblock, as [ext4.h] lays it out, fits the probed window:
    [s_magic] lies inside the structure and the structures tile the 8192
    bytes, so that no load of [is_ext4] leaves the block. *)
Definition superblocks_tile_the_window : Prop :=
  0 <= offsetof_s_magic /\
  offsetof_s_magic + 2 <= Z.pos sizeof_ext4_super_block /\
  (Z.pos sizeof_ext4_super_block | TOTAL_SECTORS * 512).

(** ** Facts about C strings *)

Lemma char_code_inj (a b : ascii) : char_code a = char_code b -> a = b.
Proof.
  unfold char_code. intros H. apply N2Z.inj in H.
  rewrite <- (ascii_N_embedding a), <- (ascii_N_embedding b). now rewrite H.
Qed.

Lemma char_code_zero (c : ascii) : char_code c = 0 -> c = zero.
Proof. intros H. apply char_code_inj. exact H. Qed.

Lemma strcmp_eq (a b : string) :
  c_string a -> c_string b -> strcmp a b = 0 -> a = b.
Proof.
  revert b. induction a as [|c a IH]; intros [|d b] Ha Hb H; simpl in H.
  - reflexivity.
  - exfalso. apply Hb. simpl. left. apply char_code_zero. lia.
  - exfalso. apply Ha. simpl. left. apply char_code_zero. lia.
  - destruct (Ascii.eqb c d) eqn:E.
    + apply Ascii.eqb_eq in E. subst d. f_equal. apply IH; auto.
      * intros Hin. apply Ha. simpl. now right.
      * intros Hin. apply Hb. simpl. now right.
    + exfalso. apply Ascii.eqb_neq in E. apply E. apply char_code_inj. lia.
Qed.

Lemma strcmp_refl (a : string) : strcmp a a = 0.
Proof. induction a; simpl; auto. now rewrite Ascii.eqb_refl. Qed.

Lemma strncmp_prefix (p s : string) :
  c_string p ->
  (strncmp s p (String.length p) = 0 <-> String.prefix p s = true).
Proof.
  revert s. induction p as [|c p IH]; intros s Hp; simpl.
  - destruct s; simpl; split; auto.
  - destruct s as [|d s]; simpl.
    + split; [|discriminate]. intros H. exfalso. apply Hp. simpl. left.
      apply char_code_zero. lia.
    + rewrite Ascii.eqb_sym. destruct (Ascii.eqb c d) eqn:E.
      * apply Ascii.eqb_eq in E; subst d.
        destruct (ascii_dec c c) as [_|n]; [|congruence].
        apply IH. intros Hin. apply Hp. simpl. now right.
      * apply Ascii.eqb_neq in E.
        destruct (ascii_dec c d) as [e|_]; [congruence|].
        split; [|discriminate]. intros H. exfalso. apply E.
        apply char_code_inj. lia.
Qed.

(** ** Tactics for running the monad *)

Ltac unfold_calls :=
  unfold sys_calloc, sys_free, sys_open, sys_ioctl_BLKGETSIZE, sys_lseek64,
    sys_read, sys_write, sys_close, reset_ext4fs_info, make_ext4fs_internal,
    sys_fork, sys_execv, sys_waitpid, ERROR, INFO, emit, bind, pure in *.

Ltac branch :=
  match goal with
  | |- context [let (_, _) := ?p in _] => destruct p eqn:?
  | |- context [match ?x with Some _ => _ | None => _ end] => destruct x eqn:?
  | |- context [if ?c then _ else _] => destruct c eqn:?
  end.

(** ** fs_mgr_is_partition_encrypted *)

(** C10: an encryptable descriptor whose key location neither begins with
    '/' nor is "footer" (the empty string included) makes
    [fs_mgr_is_partition_encrypted] return 0, whatever happened before, and
    the call adds nothing to the history: no open, no read. *)
Theorem unlisted_key_location_reads_nothing :
  forall (fstab : fstab_rec) (kl : string) (tr : trace),
    fs_mgr_is_encryptable fstab = true ->
    key_loc fstab = Some kl ->
    c_string kl ->
    first_char kl <> "/"%char ->
    kl <> CRYPT_KEY_IN_FOOTER ->
    fs_mgr_is_partition_encrypted fstab tr = (Returns 0, tr).
Proof.
  intros fstab kl tr Henc Hkl Hc Hslash Hfooter.
  unfold fs_mgr_is_partition_encrypted.
  rewrite Henc, Hkl. simpl.
  apply Ascii.eqb_neq in Hslash. rewrite Hslash.
  destruct (strcmp kl CRYPT_KEY_IN_FOOTER =? 0) eqn:E.
  - apply Z.eqb_eq in E. exfalso. apply Hfooter.
    apply strcmp_eq; auto.
    unfold c_string, CRYPT_KEY_IN_FOOTER. simpl.
    intuition discriminate.
  - reflexivity.
Qed.

Lemma uint32_range (n : Z) : 0 <= uint32 n < two_p32.
Proof. unfold uint32, two_p32. apply Z.mod_pos_bound. lia. Qed.

Lemma sint64_small (z : Z) : - 2 ^ 63 <= z < 2 ^ 63 -> sint64 z = z.
Proof.
  intros H. unfold sint64, two_p64.
  rewrite Z.mod_small; lia.
Qed.

Lemma sint64_sectors (n : Z) : sint64 (uint32 n * 512) = uint32 n * 512.
Proof.
  apply sint64_small. pose proof (uint32_range n) as H.
  unfold two_p32 in H. lia.
Qed.

Lemma close_if_open_neg (fd : Z) : (fd <? 0) = true -> close_if_open fd = [].
Proof.
  intros H. unfold close_if_open. apply Z.ltb_lt in H.
  destruct (0 <=? fd) eqn:E; [apply Z.leb_le in E; lia | reflexivity].
Qed.

Lemma close_if_open_pos (fd : Z) :
  (fd <? 0) = false -> close_if_open fd = [EvClose fd].
Proof.
  intros H. unfold close_if_open. apply Z.ltb_ge in H.
  destruct (0 <=? fd) eqn:E; [reflexivity | apply Z.leb_gt in E; lia].
Qed.

Lemma encrypted_out_run (fd v : Z) (tr : trace) :
  encrypted_out fd v tr = (Returns v, tr ++ close_if_open fd).
Proof.
  unfold encrypted_out, close_if_open. unfold_calls.
  destruct (0 <=? fd); simpl; [reflexivity | now rewrite app_nil_r].
Qed.

Lemma encrypted_read_magic_run (fd : Z) (tr : trace) :
  let got := option_map (firstn 4) (os_read os tr fd 4) in
  encrypted_read_magic fd tr
  = (Returns (if magic_was_read got then 1 else 0),
     (tr ++ [EvRead fd 4 got]) ++ close_if_open fd).
Proof.
  intros got. unfold encrypted_read_magic, bind, sys_read. fold got.
  destruct got as [bytes|]; simpl; [|apply encrypted_out_run].
  destruct (Nat.eqb (List.length bytes) 4); simpl;
    [|apply encrypted_out_run].
  destruct (le32_at bytes 0 =? CRYPT_MAGIC); simpl; apply encrypted_out_run.
Qed.

Lemma magic_was_read_spec (got : option (list byte)) :
  magic_was_read got = true <->
  exists bytes, got = Some bytes /\ List.length bytes = 4%nat /\
                le32_at bytes 0 = CRYPT_MAGIC.
Proof.
  destruct got as [bytes|]; simpl.
  - rewrite andb_true_iff, Nat.eqb_eq, Z.eqb_eq. split.
    + intros [H1 H2]. exists bytes. auto.
    + intros (b & Hb & H1 & H2). inversion Hb; subst. auto.
  - split; [discriminate|]. intros (b & Hb & _). discriminate.
Qed.

(** The result once the magic has been read through, as in both branches. *)
Lemma returns_magic_flag (got : option (list byte)) :
  let r := Returns (if magic_was_read got then 1 else 0) in
  (r = Returns 0 \/ r = Returns 1) /\
  (r = Returns 1 <->
   exists bytes, got = Some bytes /\ List.length bytes = 4%nat /\
                 le32_at bytes 0 = CRYPT_MAGIC).
Proof.
  simpl. rewrite <- magic_was_read_spec.
  destruct (magic_was_read got); split; auto; split; auto; discriminate.
Qed.

Ltac in_trace H :=
  repeat (destruct H as [H|H]; [try discriminate H|]); try contradiction H.

(** ** is_f2fs, is_ext4 *)

Lemma is_f2fs_from_spec (block : list byte) (n : nat) (i : Z) :
  (is_f2fs_from n i block = 0 \/ is_f2fs_from n i block = 1) /\
  (is_f2fs_from n i block = 1 <->
   exists j, i <= j < i + Z.of_nat n /\
             le32_at block (j * 512) = F2FS_SUPER_MAGIC).
Proof.
  revert i. induction n as [|n IH]; intros i.
  - simpl. split; [now left|]. split; [discriminate|].
    intros (j & Hj & _). lia.
  - cbn [is_f2fs_from]. unfold le32_to_cpu.
    destruct (le32_at block (i * 512) =? F2FS_SUPER_MAGIC) eqn:E.
    + apply Z.eqb_eq in E. split; [now right|]. split; [|reflexivity].
      intros _. exists i. split; [lia | exact E].
    + apply Z.eqb_neq in E. destruct (IH (i + 1)) as [H01 Hiff].
      split; [exact H01|]. rewrite Hiff. split.
      * intros (j & Hj & Hm). exists j. split; [lia | exact Hm].
      * intros (j & Hj & Hm). exists j. split; [|exact Hm].
        assert (j <> i) by (intros ->; contradiction). lia.
Qed.

Lemma is_f2fs_spec (block : list byte) :
  (is_f2fs block = 0 \/ is_f2fs block = 1) /\
  (is_f2fs block = 1 <->
   exists i, 0 <= i < 16 /\ le32_at block (i * 512) = F2FS_SUPER_MAGIC).
Proof.
  unfold is_f2fs. pose proof (is_f2fs_from_spec block (Z.to_nat TOTAL_SECTORS) 0) as H.
  replace (0 + Z.of_nat (Z.to_nat TOTAL_SECTORS)) with 16 in H by reflexivity.
  exact H.
Qed.

Lemma is_ext4_from_spec (block : list byte) (fuel : nat) :
  forall i sb : Z,
    (Z.to_nat (TOTAL_SECTORS * 512 - i) < fuel)%nat ->
    exists r,
      is_ext4_from fuel i sb block = Some r /\
      (r = 0 \/ r = 1) /\
      (r = 1 <->
       exists k, 0 <= k /\
                 i + k * Z.pos sizeof_ext4_super_block < TOTAL_SECTORS * 512 /\
                 le16_at block (sb + k * Z.pos sizeof_ext4_super_block
                                + offsetof_s_magic) = EXT4_SUPER_MAGIC).
Proof.
  induction fuel as [|fuel IH]; intros i sb Hfuel; [lia|].
  cbn [is_ext4_from]. unfold le32_to_cpu.
  destruct (i <? TOTAL_SECTORS * 512) eqn:Hi.
  - apply Z.ltb_lt in Hi.
    destruct (le16_at block (sb + offsetof_s_magic) =? EXT4_SUPER_MAGIC)
      eqn:E.
    + apply Z.eqb_eq in E. exists 1. split; [reflexivity|].
      split; [now right|]. split; [|reflexivity]. intros _.
      exists 0. rewrite Z.mul_0_l, !Z.add_0_r. auto with zarith.
    + apply Z.eqb_neq in E.
      destruct (IH (i + Z.pos sizeof_ext4_super_block)
                   (sb + Z.pos sizeof_ext4_super_block)) as (r & Hr & H01 & Hiff).
      { lia. }
      exists r. split; [exact Hr|]. split; [exact H01|].
      rewrite Hiff. split.
      * intros (k & Hk & Hlt & Hm). exists (k + 1).
        split; [lia|]. split; [lia|].
        rewrite <- Hm. f_equal. lia.
      * intros (k & Hk & Hlt & Hm).
        assert (k <> 0).
        { intros ->. apply E. rewrite <- Hm. f_equal. lia. }
        exists (k - 1). split; [lia|]. split; [lia|].
        rewrite <- Hm. f_equal. lia.
  - apply Z.ltb_ge in Hi. exists 0. split; [reflexivity|].
    split; [now left|]. split; [discriminate|].
    intros (k & Hk & Hlt & _). nia.
Qed.

Lemma is_ext4_spec (block : list byte) :
  exists r,
    is_ext4 block = Some r /\
    (r = 0 \/ r = 1) /\
    (r = 1 <->
     exists k, 0 <= k /\
               k * Z.pos sizeof_ext4_super_block < 8192 /\
               le16_at block (k * Z.pos sizeof_ext4_super_block
                              + offsetof_s_magic) = EXT4_SUPER_MAGIC).
Proof.
  unfold is_ext4.
  destruct (is_ext4_from_spec block is_ext4_fuel 0 0) as (r & Hr & H01 & Hiff).
  { unfold is_ext4_fuel. rewrite Z.sub_0_r. lia. }
  exists r. split; [exact Hr|]. split; [exact H01|].
  rewrite Hiff. change (TOTAL_SECTORS * 512) with 8192.
  clear Hr.
  split; intros (k & Hk & Hlt & Hm); exists k;
    rewrite ?Z.add_0_l in *; auto.
Qed.

(** ** fs_mgr_identify_fs *)

Lemma char_minus_one_nonzero : char_minus_one <> 0.
Proof. unfold char_minus_one. destruct char_is_signed; discriminate. Qed.

Lemma identify_out_run (fstab : fstab_rec) (fd : Z) (block : bool) (rc : Z)
      (tr : trace) :
  identify_out fstab fd block rc tr
  = (rc, tr ++ identify_out_events fd block rc).
Proof.
  unfold identify_out, identify_out_events, close_if_open. unfold_calls.
  destruct (0 <=? fd), block, (rc =? 0); simpl;
    rewrite <- ?app_assoc, ?app_nil_r; reflexivity.
Qed.

Lemma identify_out_events_no_read (fd : Z) (b : bool) (rc : Z)
      (fd' : Z) (n : nat) (got : option (list byte)) :
  ~ In (EvRead fd' n got) (identify_out_events fd b rc).
Proof.
  unfold identify_out_events, close_if_open.
  destruct (0 <=? fd), b, (negb (rc =? 0)); simpl; intuition discriminate.
Qed.

(** Once the whole probe has been read, the result is the verdict of the
    scan. *)
Lemma identify_fs_after_read (fstab : fstab_rec) (fd : Z) (block : list byte) :
  In (EvRead fd (Z.to_nat 8192) (Some block))
     (trace_of (fs_mgr_identify_fs fstab)) ->
  List.length block = Z.to_nat 8192 ->
  result_of (fs_mgr_identify_fs fstab)
  = option_map (fun hit : bool => if hit then 0 else char_minus_one)
               (identify_matches (fs_type fstab) block).
Proof.
  unfold result_of, trace_of, fs_mgr_identify_fs, bind, sys_calloc.
  set (ok := os_calloc os [] (TOTAL_SECTORS * 512)). clearbody ok.
  cbn [app]. destruct ok; cbn [negb].
  2:{ rewrite identify_out_run. cbn [fst snd app pure].
      intros [H|H]; [discriminate H|].
      now apply identify_out_events_no_read in H. }
  unfold sys_open. set (fd' := os_open os _ (blk_device fstab) O_RDONLY).
  clearbody fd'. cbn [app].
  destruct (fd' <? 0) eqn:Hfd.
  { rewrite identify_out_run. cbn [fst snd app pure].
    intros [H|[H|H]]; try discriminate H.
    now apply identify_out_events_no_read in H. }
  unfold sys_read. set (got := option_map _ _). clearbody got. cbn [app].
  destruct got as [data|].
  2:{ rewrite identify_out_run. cbn [fst snd app pure].
      intros [H|[H|[H|H]]]; try discriminate H.
      now apply identify_out_events_no_read in H. }
  destruct (Z.of_nat (List.length data) =? TOTAL_SECTORS * 512) eqn:Hlen;
    cbn [negb].
  2:{ rewrite identify_out_run. cbn [fst snd app pure].
      apply Z.eqb_neq in Hlen.
      intros [H|[H|[H|H]]] Hb; try discriminate H.
      - inversion H; subst. exfalso. apply Hlen. rewrite Hb. reflexivity.
      - now apply identify_out_events_no_read in H. }
  assert (Hdata : forall tr' : trace,
             In (EvRead fd (Z.to_nat 8192) (Some block))
                (EvCalloc (TOTAL_SECTORS * 512) true
                 :: EvOpen (blk_device fstab) O_RDONLY fd'
                 :: EvRead fd' (Z.to_nat (TOTAL_SECTORS * 512)) (Some data)
                 :: tr') ->
             (forall got, ~ In (EvRead fd (Z.to_nat 8192) got) tr') ->
             data = block).
  { intros tr' [H|[H|[H|H]]] Hnot; try discriminate H.
    - inversion H; subst. reflexivity.
    - exfalso. exact (Hnot _ H). }
  destruct (identify_matches (fs_type fstab) data) as [[|]|] eqn:Hm.
  - rewrite identify_out_run. cbn [fst snd app pure].
    intros H _. rewrite <- (Hdata _ H), Hm; [reflexivity|].
    intros got. apply identify_out_events_no_read.
  - rewrite identify_out_run. cbn [fst snd app pure].
    intros H _. rewrite <- (Hdata _ H), Hm; [reflexivity|].
    intros got. apply identify_out_events_no_read.
  - cbn [fst snd app pure]. intros H _.
    rewrite <- (Hdata _ H), Hm; [reflexivity|]. intros got [].
Qed.

Lemma strncmp_f2fs (s : string) :
  strncmp s "f2fs" 4 = 0 <-> String.prefix "f2fs" s = true.
Proof.
  apply (strncmp_prefix "f2fs" s). unfold c_string. simpl.
  intuition discriminate.
Qed.

Lemma strncmp_ext4 (s : string) :
  strncmp s "ext4" 4 = 0 <-> String.prefix "ext4" s = true.
Proof.
  apply (strncmp_prefix "ext4" s). unfold c_string. simpl.
  intuition discriminate.
Qed.

Lemma prefix_f2fs_not_ext4 (s : string) :
  String.prefix "f2fs" s = true -> String.prefix "ext4" s = false.
Proof.
  destruct s as [|c s]; cbn [String.prefix]; [intros H; discriminate H|].
  destruct (ascii_dec "f"%char c) as [<-|]; [|intros H; discriminate H].
  intros _. destruct (ascii_dec "e"%char "f"%char) as [e|_];
    [discriminate e | reflexivity].
Qed.

(** ** format_ext4 *)

Lemma check_fs_blksize_run (tr : trace) :
  check_fs_blksize tr = (tt, tr ++ blksize_events).
Proof.
  unfold blksize_events, check_fs_blksize.
  destruct (_ && _); unfold_calls; simpl;
    [reflexivity | now rewrite app_nil_r].
Qed.

Lemma blksize_events_are_logs : Forall (fun ev => is_log ev = true) blksize_events.
Proof.
  unfold blksize_events, check_fs_blksize.
  destruct (_ && _); unfold_calls; simpl; auto.
Qed.

Lemma format_ext4_runs (blk mnt : string) (nf : bool) (tr0 : trace) :
  exists rc ext,
    format_ext4 blk mnt nf tr0 = (rc, tr0 ++ ext) /\
    format_ext4_run blk mnt nf rc ext.
Proof.
  unfold format_ext4, bind at 1. rewrite check_fs_blksize_run.
  unfold wipe_crypto_footer. unfold_calls.
  set (fd := os_open os _ blk O_RDWR). clearbody fd.
  destruct (fd <? 0) eqn:Hfd.
  { apply Z.ltb_lt in Hfd.
    eexists _, _. split; [|apply (Ext4OpenFails blk mnt nf fd Hfd)].
    now rewrite <- !app_assoc. }
  apply Z.ltb_ge in Hfd.
  destruct (os_blkgetsize os _ fd) as [r n].
  pose proof (uint32_range n) as Hn. rewrite sint64_sectors.
  set (nr := uint32 n) in *. clearbody nr.
  destruct (r =? -1) eqn:Hr.
  { apply Z.eqb_eq in Hr. subst r.
    eexists _, _. split; [|apply (Ext4SizeFails blk mnt nf fd nr Hfd)].
    now rewrite <- !app_assoc. }
  apply Z.eqb_neq in Hr.
  destruct nf.
  - set (r' := os_lseek64 os _ fd _). clearbody r'.
    destruct (r' =? -1) eqn:Hseek.
    + apply Z.eqb_eq in Hseek. subst r'.
      eexists _, _.
      split; [|apply (Ext4SeekFails blk mnt fd r nr Hfd Hr Hn)].
      now rewrite <- !app_assoc.
    + apply Z.eqb_neq in Hseek.
      set (w := os_write os _ fd _). clearbody w.
      set (rc := os_make_ext4fs os _ fd _ mnt). clearbody rc.
      eexists _, _.
      split;
        [|apply (Ext4BuiltAfterWipe blk mnt fd r nr r' w rc Hfd Hr Hn Hseek)].
      unfold builder_log.
      destruct (negb (rc =? 0)); now rewrite <- !app_assoc.
  - set (rc := os_make_ext4fs os _ fd _ mnt). clearbody rc.
    eexists _, _.
    split; [|apply (Ext4Built blk mnt fd r nr rc Hfd Hr Hn)].
    unfold builder_log.
    destruct (negb (rc =? 0)); now rewrite <- !app_assoc.
Qed.

Lemma not_in_blksize_events (ev : event) :
  In ev blksize_events -> is_log ev = true.
Proof.
  intros H. exact (proj1 (Forall_forall _ _) blksize_events_are_logs ev H).
Qed.

(** Membership in the history of a run of [format_ext4]. *)
Ltac in_run H :=
  unfold builder_log in H;
  repeat match type of H with
         | context [negb ?c] => destruct c; cbn [negb] in H
         end;
  (apply in_app_or in H; destruct H as [H|H];
   [apply not_in_blksize_events in H; try discriminate H
   |cbn [app] in H; in_trace H]).

Lemma format_ext4_trace (blk mnt : string) (nf : bool) :
  format_ext4_run blk mnt nf (result_of (format_ext4 blk mnt nf))
                  (trace_of (format_ext4 blk mnt nf)).
Proof.
  unfold result_of, trace_of.
  destruct (format_ext4_runs blk mnt nf []) as (rc & ext & -> & Hrun).
  exact Hrun.
Qed.

(** X20 (the part of C2 that the code keeps): a failed seek to the footer
    ends [format_ext4] with -1 before the ext4 builder is reached. *)
Lemma format_ext4_seek_failure_aborts (blk mnt : string) (nf : bool)
      (fd off : Z) :
  In (EvLseek64 fd off (-1)) (trace_of (format_ext4 blk mnt nf)) ->
  result_of (format_ext4 blk mnt nf) = -1 /\
  forall ev, In ev (trace_of (format_ext4 blk mnt nf)) ->
             is_ext4_builder ev = false.
Proof.
  intros H. pose proof (format_ext4_trace blk mnt nf) as Hrun.
  set (tr := trace_of _) in *. set (rc := result_of _) in *.
  clearbody tr rc.
  destruct Hrun as [nf fd' Hfd
                   |nf fd' nr Hfd
                   |fd' r nr Hfd Hr Hnr
                   |fd' r nr r' w rc Hfd Hr Hnr Hr'
                   |fd' r nr rc Hfd Hr Hnr].
  - in_run H.
  - in_run H.
  - split; [reflexivity|]. intros ev Hev.
    in_run Hev; try (subst ev; reflexivity).
    destruct ev; try reflexivity; discriminate.
  - exfalso. in_run H; inversion H; subst; congruence.
  - in_run H.
Qed.

(** Whatever the footer requirement, the length handed to the ext4 builder
    is the full length of the device. *)
Lemma format_ext4_builder_length (blk mnt : string) (nf : bool)
      (fd len : Z) (m : string) (rc : Z) :
  In (EvMakeExt4fs fd len m rc) (trace_of (format_ext4 blk mnt nf)) ->
  exists r nr,
    In (EvBlkGetSize fd r nr) (trace_of (format_ext4 blk mnt nf)) /\
    len = nr * 512 /\ m = mnt /\
    result_of (format_ext4 blk mnt nf) = rc.
Proof.
  intros H. pose proof (format_ext4_trace blk mnt nf) as Hrun.
  set (tr := trace_of _) in *. set (rc0 := result_of _) in *.
  clearbody tr rc0.
  destruct Hrun as [nf fd' Hfd
                   |nf fd' nr Hfd
                   |fd' r nr Hfd Hr Hnr
                   |fd' r nr r' w rc' Hfd Hr Hnr Hr'
                   |fd' r nr rc' Hfd Hr Hnr].
  - in_run H.
  - in_run H.
  - in_run H.
  - exists r, nr. in_run H; inversion H; subst;
      (split; [apply in_or_app; right; simpl; auto | auto]).
  - exists r, nr. in_run H; inversion H; subst;
      (split; [apply in_or_app; right; simpl; auto | auto]).
Qed.

(** ** format_f2fs: the wait loop *)

Lemma f2fs_wait_mismatch (fuel : nat) (pid rc : Z) (tr : trace) :
  fst (os_waitpid os tr pid) <> pid ->
  f2fs_wait (S fuel) pid rc tr
  = (Some (-1), tr ++ wait_failed_events pid (os_waitpid os tr pid)).
Proof.
  intros H. cbn [f2fs_wait]. unfold bind at 1, sys_waitpid.
  destruct (os_waitpid os tr pid) as [p st]. cbn [fst snd] in *.
  apply Z.eqb_neq in H. rewrite H. cbn [negb]. unfold_calls.
  unfold wait_failed_events. cbn [fst snd]. now rewrite <- app_assoc.
Qed.

Lemma f2fs_wait_exited (fuel : nat) (pid rc : Z) (tr : trace) :
  fst (os_waitpid os tr pid) = pid ->
  WIFEXITED (stored_status rc (snd (os_waitpid os tr pid))) = true ->
  f2fs_wait (S fuel) pid rc tr
  = (Some (exit_status_to_rc
             (stored_status rc (snd (os_waitpid os tr pid)))),
     tr ++ wait_done_events pid (os_waitpid os tr pid)).
Proof.
  intros Hp Hex. cbn [f2fs_wait]. unfold bind at 1, sys_waitpid.
  destruct (os_waitpid os tr pid) as [p st]. cbn [fst snd] in *.
  subst p. rewrite Z.eqb_refl, Hex. cbn [negb]. unfold_calls.
  unfold wait_done_events, exit_status_to_rc. cbn [fst snd].
  rewrite <- app_assoc. cbn [app].
  destruct (WEXITSTATUS (stored_status rc st) =? 0) eqn:E; cbn [negb].
  - apply Z.eqb_eq in E. now rewrite E.
  - reflexivity.
Qed.

Lemma f2fs_wait_again (fuel : nat) (pid rc : Z) (tr : trace) :
  still_waiting pid rc (os_waitpid os tr pid) = true ->
  f2fs_wait (S fuel) pid rc tr
  = f2fs_wait fuel pid (stored_status rc (snd (os_waitpid os tr pid)))
              (tr ++ wait_again_events pid (os_waitpid os tr pid)).
Proof.
  unfold still_waiting. intros H. apply andb_true_iff in H.
  destruct H as [Hp Hex]. apply negb_true_iff in Hex.
  cbn [f2fs_wait]. unfold bind at 1, sys_waitpid.
  destruct (os_waitpid os tr pid) as [p st]. cbn [fst snd] in *.
  rewrite Hp, Hex. cbn [negb]. unfold bind, ERROR, emit.
  unfold wait_again_events. cbn [fst snd]. now rewrite <- app_assoc.
Qed.

(** One round, by cases on the answer. *)
Lemma f2fs_wait_step (fuel : nat) (pid rc : Z) (tr : trace) :
  let w := os_waitpid os tr pid in
  (still_waiting pid rc w = true /\
   f2fs_wait (S fuel) pid rc tr
   = f2fs_wait fuel pid (stored_status rc (snd w))
               (tr ++ wait_again_events pid w)) \/
  (still_waiting pid rc w = false /\
   exists v ext,
     f2fs_wait (S fuel) pid rc tr = (Some v, tr ++ ext) /\
     (v = 0 \/ v = -1) /\
     wait_answers ext = [w] /\
     Forall (fun ev => is_waitpid ev || is_log ev = true) ext).
Proof.
  intros w. destruct (still_waiting pid rc w) eqn:Hw.
  - left. split; [reflexivity|]. now apply f2fs_wait_again.
  - right. split; [reflexivity|]. unfold still_waiting in Hw.
    apply andb_false_iff in Hw.
    destruct (Z.eq_dec (fst w) pid) as [Hp|Hp].
    + destruct Hw as [Hw|Hw]; [apply Z.eqb_neq in Hw; contradiction|].
      apply negb_false_iff in Hw.
      exists (exit_status_to_rc (stored_status rc (snd w))),
             (wait_done_events pid w).
      split; [now apply f2fs_wait_exited|].
      split; [unfold exit_status_to_rc; destruct (_ =? 0); auto|].
      split; [now destruct w|].
      unfold wait_done_events. repeat constructor.
    + exists (-1), (wait_failed_events pid w).
      split; [now apply f2fs_wait_mismatch|].
      split; [now right|]. split; [now destruct w|].
      unfold wait_failed_events. repeat constructor.
Qed.

Lemma wait_answers_app (a b : trace) :
  wait_answers (a ++ b) = wait_answers a ++ wait_answers b.
Proof. unfold wait_answers. apply flat_map_app. Qed.

Lemma nwaits_app (a b : trace) : nwaits (a ++ b) = (nwaits a + nwaits b)%nat.
Proof. unfold nwaits. now rewrite filter_app, length_app. Qed.

(** The whole loop: what it adds to the history are waits and log lines;
    every wait but the last was answered [still_waiting]; a value, when
    there is one, is 0 or -1. *)
Lemma f2fs_wait_runs (fuel : nat) :
  forall (pid rc : Z) (tr : trace),
  exists r ext,
    f2fs_wait fuel pid rc tr = (r, tr ++ ext) /\
    Forall (fun ev => is_waitpid ev || is_log ev = true) ext /\
    (forall v, r = Some v -> v = 0 \/ v = -1) /\
    (forall ws0 w ws1,
        wait_answers ext = ws0 ++ w :: ws1 -> ws1 <> [] ->
        fst w = pid /\ forall s, snd w = Some s -> WIFEXITED s = false).
Proof.
  induction fuel as [|fuel IH]; intros pid rc tr.
  - exists None, []. cbn. rewrite app_nil_r.
    split; [reflexivity|]. split; [constructor|].
    split; [discriminate|]. intros [|? ?] ? ? H; discriminate.
  - destruct (f2fs_wait_step fuel pid rc tr) as [[Hw Heq]|[Hw Hstop]].
    + destruct (IH pid (stored_status rc (snd (os_waitpid os tr pid)))
                   (tr ++ wait_again_events pid (os_waitpid os tr pid)))
        as (r & ext & Hrun & Hev & Hv & Hws).
      exists r, (wait_again_events pid (os_waitpid os tr pid) ++ ext).
      split; [rewrite Heq, Hrun; now rewrite app_assoc|].
      split.
      { apply Forall_app. split; [|exact Hev].
        unfold wait_again_events. repeat constructor. }
      split; [exact Hv|].
      intros ws0 w ws1 Hsplit Hne. rewrite wait_answers_app in Hsplit.
      unfold wait_again_events in Hsplit at 1. cbn in Hsplit.
      destruct ws0 as [|w0 ws0]; cbn in Hsplit.
      * inversion Hsplit; subst. cbn [fst snd]. unfold still_waiting in Hw.
        apply andb_true_iff in Hw. destruct Hw as [Hp Hex].
        apply Z.eqb_eq in Hp. apply negb_true_iff in Hex.
        split; [exact Hp|].
        intros s Hs. rewrite Hs in Hex. exact Hex.
      * inversion Hsplit; subst. eapply Hws; eauto.
    + destruct Hstop as (v & ext & Hrun & Hv & Hws & Hev).
      exists (Some v), ext. split; [exact Hrun|]. split; [exact Hev|].
      split; [intros v' Hv'; inversion Hv'; subst; exact Hv|].
      intros ws0 w ws1 Hsplit Hne. rewrite Hws in Hsplit.
      destruct ws0 as [|? [|? ?]]; cbn in Hsplit; inversion Hsplit; subst;
        contradiction.
Qed.




(** ** format_f2fs *)

Lemma format_f2fs_child (fuel : nat) (blk : string) (nf : bool) (tr : trace) :
  os_fork os tr = 0 ->
  exists b : bool,
    format_f2fs fuel blk nf tr
    = (Some (if b then Replaced else Exits 1),
       tr ++ [EvFork 0; EvExecv mkfs_f2fs (format_f2fs_args blk nf) b]).
Proof.
  intros Hfork. unfold format_f2fs, bind at 1, sys_fork. rewrite Hfork.
  cbn [Z.eqb]. unfold bind, sys_execv, pure.
  exists (os_execv os (tr ++ [EvFork 0]) mkfs_f2fs (format_f2fs_args blk nf)).
  rewrite <- app_assoc. cbn [app].
  now destruct (os_execv os _ mkfs_f2fs _).
Qed.

Lemma format_f2fs_parent (fuel : nat) (blk : string) (nf : bool) (tr : trace) :
  os_fork os tr <> 0 ->
  format_f2fs fuel blk nf tr
  = (option_map Returns
       (fst (f2fs_wait fuel (os_fork os tr) 0
                       (tr ++ [EvFork (os_fork os tr)]))),
     snd (f2fs_wait fuel (os_fork os tr) 0 (tr ++ [EvFork (os_fork os tr)]))).
Proof.
  intros Hfork. unfold format_f2fs, bind at 1, sys_fork.
  apply Z.eqb_neq in Hfork. rewrite Hfork. unfold bind, pure.
  now destruct (f2fs_wait fuel _ 0 _).
Qed.

(** ** fs_mgr_do_format *)

Lemma logs_are_not_subprocess (l : trace) :
  Forall (fun ev => is_log ev = true) l ->
  Forall (fun ev => is_f2fs_subprocess ev = false) l.
Proof.
  apply Forall_impl. intros ev H. destruct ev; try discriminate; reflexivity.
Qed.

Lemma format_ext4_run_no_subprocess (blk mnt : string) (nf : bool) (rc : Z)
      (ext : trace) :
  format_ext4_run blk mnt nf rc ext ->
  Forall (fun ev => is_f2fs_subprocess ev = false) ext.
Proof.
  intros Hrun.
  destruct Hrun; unfold builder_log;
    repeat match goal with
           | |- context [negb ?c] => destruct c; cbn [negb]
           end;
    (apply Forall_app; split;
     [apply logs_are_not_subprocess, blksize_events_are_logs
     |repeat constructor]).
Qed.

Lemma format_f2fs_no_builder (fuel : nat) (blk : string) (nf : bool)
      (tr : trace) :
  exists r ext,
    format_f2fs fuel blk nf tr = (r, tr ++ ext) /\
    Forall (fun ev => is_ext4_builder ev = false) ext.
Proof.
  destruct (Z.eq_dec (os_fork os tr) 0) as [Hfork|Hfork].
  - destruct (format_f2fs_child fuel blk nf tr Hfork) as [b Hb].
    eexists _, _. split; [exact Hb|]. repeat constructor.
  - rewrite format_f2fs_parent by assumption.
    destruct (f2fs_wait_runs fuel (os_fork os tr) 0
                             (tr ++ [EvFork (os_fork os tr)]))
      as (r & ext & Hrun & Hev & _ & _).
    rewrite Hrun. cbn [fst snd]. rewrite <- app_assoc.
    eexists _, _. split; [reflexivity|].
    apply Forall_app. split; [repeat constructor|].
    revert Hev. apply Forall_impl. intros ev H.
    destruct ev; try discriminate; reflexivity.
Qed.

(** C6: [fs_mgr_do_format] looks at the first four characters of the
    declared type only.  When they are "ext4", nothing of the f2fs
    subprocess path (fork, execv, waitpid) is called; when they are "f2fs",
    the ext4 builder is not called; in every other case the call returns
    [-EINVAL] and all it has done is write log lines: the device is neither
    opened nor touched. *)
Theorem do_format_dispatches_on_type_prefix :
  forall (fuel : nat) (fstab : fstab_rec),
    (String.prefix "ext4" (fs_type fstab) = true ->
     Forall (fun ev => is_f2fs_subprocess ev = false)
            (trace_of (fs_mgr_do_format fuel fstab)))
    /\
    (String.prefix "f2fs" (fs_type fstab) = true ->
     Forall (fun ev => is_ext4_builder ev = false)
            (trace_of (fs_mgr_do_format fuel fstab)))
    /\
    (String.prefix "ext4" (fs_type fstab) = false ->
     String.prefix "f2fs" (fs_type fstab) = false ->
     result_of (fs_mgr_do_format fuel fstab) = Some (Returns (- EINVAL)) /\
     Forall (fun ev => is_log ev = true)
            (trace_of (fs_mgr_do_format fuel fstab))).
Proof.
  intros fuel fstab.
  unfold result_of, trace_of, fs_mgr_do_format, bind at 1, ERROR, emit.
  cbn [app].
  split; [|split].
  - intros Hext.
    assert (Hf : (strncmp (fs_type fstab) "f2fs" 4 =? 0) = false).
    { apply Z.eqb_neq. intros H. apply strncmp_f2fs in H.
      apply prefix_f2fs_not_ext4 in H. congruence. }
    apply strncmp_ext4 in Hext. rewrite Hf, Hext. cbn [Z.eqb].
    unfold bind, pure. cbn [app].
    destruct (format_ext4_runs (blk_device fstab) (mount_point fstab)
                               (needs_footer_of fstab)
                               [EvLog LOG_ERROR "Formatting %s as '%s'%s.\n"])
      as (rc & ext & Hrun & Hshape).
    rewrite Hrun. cbn [snd app]. constructor; [reflexivity|].
    exact (format_ext4_run_no_subprocess _ _ _ _ _ Hshape).
  - intros Hf2. apply strncmp_f2fs in Hf2. rewrite Hf2. cbn [Z.eqb].
    unfold bind. cbn [app].
    destruct (format_f2fs_no_builder fuel (blk_device fstab)
                                     (needs_footer_of fstab)
                                     [EvLog LOG_ERROR "Formatting %s as '%s'%s.\n"])
      as (r & ext & Hrun & Hev).
    rewrite Hrun. cbn [snd app]. constructor; [reflexivity|exact Hev].
  - intros Hext Hf2.
    assert (Hf : (strncmp (fs_type fstab) "f2fs" 4 =? 0) = false).
    { apply Z.eqb_neq. intros H. apply strncmp_f2fs in H. congruence. }
    assert (He : (strncmp (fs_type fstab) "ext4" 4 =? 0) = false).
    { apply Z.eqb_neq. intros H. apply strncmp_ext4 in H. congruence. }
    rewrite Hf, He. unfold bind, pure. cbn [fst snd app].
    split; [reflexivity|]. repeat constructor.
Qed.

(** ** fs_mgr_is_partition_encrypted: all its runs *)

Lemma encrypted_runs (fstab : fstab_rec) (tr0 : trace) :
  exists r ext,
    fs_mgr_is_partition_encrypted fstab tr0 = (r, tr0 ++ ext) /\
    encrypted_run fstab r ext.
Proof.
  unfold fs_mgr_is_partition_encrypted.
  destruct (fs_mgr_is_encryptable fstab) eqn:Henc; cbn [negb].
  2:{ exists (Returns 0), []. rewrite app_nil_r. split; [reflexivity|].
      now constructor. }
  destruct (key_loc fstab) as [kl|] eqn:Hkl.
  2:{ exists Undefined, []. rewrite app_nil_r. split; [reflexivity|].
      now constructor. }
  destruct (Ascii.eqb (first_char kl) "/"%char) eqn:Hslash.
  - apply Ascii.eqb_eq in Hslash.
    unfold bind, sys_open. set (fd := os_open os tr0 kl O_RDWR).
    clearbody fd. destruct (fd <? 0) eqn:Hfd.
    + rewrite encrypted_out_run, close_if_open_neg by assumption.
      rewrite app_nil_r. apply Z.ltb_lt in Hfd.
      eexists _, _. split; [reflexivity|].
      now apply (EncFileOpenFails fstab kl fd).
    + rewrite encrypted_read_magic_run, close_if_open_pos by assumption.
      set (got := option_map _ _). clearbody got. apply Z.ltb_ge in Hfd.
      eexists _, _. split; [now rewrite <- !app_assoc|].
      now apply (EncFileRead fstab kl fd got).
  - apply Ascii.eqb_neq in Hslash.
    destruct (strcmp kl CRYPT_KEY_IN_FOOTER =? 0) eqn:Hfooter.
    + apply Z.eqb_eq in Hfooter. unfold bind, sys_open.
      set (fd := os_open os tr0 (blk_device fstab) O_RDWR).
      clearbody fd. destruct (fd <? 0) eqn:Hfd.
      * rewrite encrypted_out_run, close_if_open_neg by assumption.
        rewrite app_nil_r. apply Z.ltb_lt in Hfd.
        eexists _, _. split; [reflexivity|].
        now apply (EncFooterOpenFails fstab kl fd).
      * unfold sys_ioctl_BLKGETSIZE.
        destruct (os_blkgetsize os _ fd) as [r n].
        pose proof (uint32_range n) as Hn. rewrite sint64_sectors.
        set (nr := uint32 n) in *. clearbody nr.
        pose proof Hfd as Hfd'. apply Z.ltb_ge in Hfd'.
        destruct (r =? -1) eqn:Hr.
        -- rewrite encrypted_out_run, close_if_open_pos by assumption.
           apply Z.eqb_eq in Hr. subst r.
           eexists _, _. split; [now rewrite <- !app_assoc|].
           now apply (EncFooterSizeFails fstab kl fd nr).
        -- apply Z.eqb_neq in Hr. unfold sys_lseek64.
           set (r' := os_lseek64 os _ fd _). clearbody r'.
           destruct (r' =? -1) eqn:Hseek.
           ++ rewrite encrypted_out_run, close_if_open_pos by assumption.
              apply Z.eqb_eq in Hseek. subst r'.
              eexists _, _. split; [now rewrite <- !app_assoc|].
              now apply (EncFooterSeekFails fstab kl fd r nr).
           ++ rewrite encrypted_read_magic_run, close_if_open_pos
                by assumption.
              set (got := option_map _ _). clearbody got.
              apply Z.eqb_neq in Hseek.
              eexists _, _. split; [now rewrite <- !app_assoc|].
              now apply (EncFooterRead fstab kl fd r nr r' got).
    + apply Z.eqb_neq in Hfooter. rewrite encrypted_out_run.
      eexists _, _. split; [reflexivity|].
      now apply (EncUnlistedKey fstab kl).
Qed.

(** X1: [fs_mgr_is_partition_encrypted] closes exactly what it opened.
    Whatever the descriptor and whatever the environment answers, the
    descriptors closed during the call are the descriptors [open] delivered
    (at most one), each closed once; when [open] fails or is never called,
    nothing is closed. *)
Theorem encrypted_probe_closes_what_it_opened :
  forall (fstab : fstab_rec) (tr0 : trace),
  exists ext,
    snd (fs_mgr_is_partition_encrypted fstab tr0) = tr0 ++ ext /\
    closed_fds ext = opened_fds ext /\
    (List.length (opened_fds ext) <= 1)%nat.
Proof.
  intros fstab tr0.
  destruct (encrypted_runs fstab tr0) as (r & ext & Hrun & Hshape).
  exists ext. rewrite Hrun. split; [reflexivity|].
  destruct Hshape; cbn [opened_fds closed_fds flat_map app];
    repeat match goal with
           | H : ?fd < 0 |- context [0 <=? ?fd] =>
               replace (0 <=? fd) with false by (symmetry; apply Z.leb_gt; lia)
           | H : 0 <= ?fd |- context [0 <=? ?fd] =>
               replace (0 <=? fd) with true by (symmetry; apply Z.leb_le; lia)
           end;
    cbn [app List.length]; split; auto.
Qed.

(** X2: [fs_mgr_is_partition_encrypted] only probes.  Every call it makes
    is an open, the size query, a seek, a read or a close: it writes
    nothing (although it opens read-write), logs nothing, and never reaches
    the builder or a subprocess; and it reads at most once, four bytes. *)
Theorem encrypted_probe_never_writes :
  forall (fstab : fstab_rec) (tr0 : trace),
  exists ext,
    snd (fs_mgr_is_partition_encrypted fstab tr0) = tr0 ++ ext /\
    Forall (fun ev => is_probe_call ev = true) ext /\
    (forall fd n got, In (EvRead fd n got) ext -> n = 4%nat) /\
    (List.length (filter (fun ev => match ev with
                                    | EvRead _ _ _ => true
                                    | _ => false
                                    end) ext) <= 1)%nat.
Proof.
  intros fstab tr0.
  destruct (encrypted_runs fstab tr0) as (r & ext & Hrun & Hshape).
  exists ext. rewrite Hrun. split; [reflexivity|].
  destruct Hshape; (split; [repeat constructor|]);
    (split; [intros fd' n' got' Hin; in_trace Hin;
             inversion Hin; reflexivity
            |cbn; lia]).
Qed.

(** ** fs_mgr_identify_fs: all its runs *)

Lemma identify_matches_total (fstype : string) (data : list byte) :
  exists b, identify_matches fstype data = Some b.
Proof.
  unfold identify_matches.
  destruct ((strncmp fstype "f2fs" 4 =? 0) && negb (is_f2fs data =? 0));
    [now exists true|].
  destruct (strncmp fstype "ext4" 4 =? 0); [|now exists false].
  destruct (is_ext4_spec data) as (r & Hr & _). rewrite Hr. eauto.
Qed.

Lemma identify_out_events_failure (fd : Z) (block : bool) :
  identify_out_events fd block char_minus_one
  = close_if_open fd ++ (if block then [EvFree] else []) ++ [identify_log].
Proof.
  unfold identify_out_events.
  pose proof char_minus_one_nonzero as H. apply Z.eqb_neq in H.
  now rewrite H.
Qed.

Lemma identify_runs (fstab : fstab_rec) (tr0 : trace) :
  exists rc ext,
    fs_mgr_identify_fs fstab tr0 = (Some rc, tr0 ++ ext) /\
    identify_run fstab rc ext.
Proof.
  unfold fs_mgr_identify_fs, bind at 1, sys_calloc.
  set (ok := os_calloc os tr0 (TOTAL_SECTORS * 512)). clearbody ok.
  destruct ok; cbn [negb].
  2:{ unfold bind, pure. rewrite identify_out_run, identify_out_events_failure.
      eexists _, _. split; [now rewrite <- !app_assoc|]. constructor. }
  unfold bind at 1, sys_open.
  set (fd := os_open os _ (blk_device fstab) O_RDONLY). clearbody fd.
  destruct (fd <? 0) eqn:Hfd.
  { unfold bind, pure. rewrite identify_out_run, identify_out_events_failure.
    rewrite close_if_open_neg by assumption. apply Z.ltb_lt in Hfd.
    eexists _, _. split; [now rewrite <- !app_assoc|].
    now apply (IdOpenFails fstab fd). }
  pose proof Hfd as Hfd'. apply Z.ltb_ge in Hfd'.
  unfold bind at 1, sys_read. set (got := option_map _ _). clearbody got.
  destruct got as [data|].
  2:{ unfold bind, pure. rewrite identify_out_run, identify_out_events_failure.
      rewrite close_if_open_pos by assumption.
      eexists _, _. split; [now rewrite <- !app_assoc|].
      apply (IdReadFails fstab fd None Hfd'). discriminate. }
  destruct (Z.of_nat (List.length data) =? TOTAL_SECTORS * 512) eqn:Hlen;
    cbn [negb].
  2:{ unfold bind, pure. rewrite identify_out_run, identify_out_events_failure.
      rewrite close_if_open_pos by assumption. apply Z.eqb_neq in Hlen.
      eexists _, _. split; [now rewrite <- !app_assoc|].
      apply (IdReadFails fstab fd (Some data) Hfd').
      intros d Hd Hl. inversion Hd; subst. apply Hlen. rewrite Hl.
      reflexivity. }
  apply Z.eqb_eq in Hlen.
  assert (Hl : List.length data = Z.to_nat 8192).
  { change (TOTAL_SECTORS * 512) with 8192 in Hlen. lia. }
  destruct (identify_matches_total (fs_type fstab) data) as [[|] Hm];
    rewrite Hm; unfold bind, pure; rewrite identify_out_run.
  - unfold identify_out_events. rewrite close_if_open_pos by assumption.
    cbn [Z.eqb negb app].
    eexists _, _. split; [now rewrite <- !app_assoc|].
    now apply (IdMatch fstab fd data).
  - rewrite identify_out_events_failure, close_if_open_pos by assumption.
    eexists _, _. split; [now rewrite <- !app_assoc|].
    now apply (IdNoMatch fstab fd data).
Qed.

(** X3: [fs_mgr_identify_fs] always returns, and what it returns is 0 or
    the widened [char] -1 (-1 where plain [char] is signed, 255 where it is
    unsigned).  It returns 0 exactly when it has read all 8192 bytes and
    the scan for the declared type hit; no memory, a failed open, a failed
    or short read all give the nonzero value. *)
Theorem identify_fs_returns_zero_only_after_full_read :
  forall (fstab : fstab_rec) (tr0 : trace),
  exists rc ext,
    fs_mgr_identify_fs fstab tr0 = (Some rc, tr0 ++ ext) /\
    (rc = 0 \/ rc = if char_is_signed then -1 else 255) /\
    (rc = 0 <->
     exists fd data,
       In (EvRead fd (Z.to_nat 8192) (Some data)) ext /\
       List.length data = Z.to_nat 8192 /\
       identify_matches (fs_type fstab) data = Some true).
Proof.
  intros fstab tr0.
  destruct (identify_runs fstab tr0) as (rc & ext & Hrun & Hshape).
  exists rc, ext. split; [exact Hrun|].
  pose proof char_minus_one_nonzero as Hnz.
  assert (Hno : forall ext',
             (forall fd data,
                 In (EvRead fd (Z.to_nat 8192) (Some data)) ext' ->
                 List.length data = Z.to_nat 8192 ->
                 identify_matches (fs_type fstab) data = Some true ->
                 False) ->
             (char_minus_one = 0 \/
              char_minus_one = if char_is_signed then -1 else 255) /\
             (char_minus_one = 0 <->
              exists fd data,
                In (EvRead fd (Z.to_nat 8192) (Some data)) ext' /\
                List.length data = Z.to_nat 8192 /\
                identify_matches (fs_type fstab) data = Some true)).
  { intros ext' H. split; [now right|]. split; [contradiction|].
    intros (fd & data & Hin & Hl & Hm). exfalso. eauto. }
  destruct Hshape as [|fd Hfd|fd got Hfd Hshort|fd data Hfd Hl Hm
                      |fd data Hfd Hl Hm].
  - apply Hno. intros fd data Hin. unfold identify_log in Hin. in_trace Hin.
  - apply Hno. intros fd' data Hin. unfold identify_log in Hin. in_trace Hin.
  - apply Hno. intros fd' data Hin Hl _. unfold identify_log in Hin.
    in_trace Hin. inversion Hin; subst. now apply (Hshort data).
  - split; [now left|]. split; [|reflexivity]. intros _.
    exists fd, data. simpl. auto.
  - apply Hno. intros fd' data' Hin _ Hm'. unfold identify_log in Hin.
    in_trace Hin. inversion Hin; subst. congruence.
Qed.

(** X4: [fs_mgr_identify_fs] gives back what it took.  The descriptors
    closed are those [open] delivered; the block is freed once if [calloc]
    gave one and never otherwise; and when [calloc] fails the device is not
    even opened. *)
Theorem identify_fs_releases_what_it_took :
  forall (fstab : fstab_rec) (tr0 : trace),
  exists ext,
    snd (fs_mgr_identify_fs fstab tr0) = tr0 ++ ext /\
    closed_fds ext = opened_fds ext /\
    List.length (filter is_free ext) = List.length (filter is_calloc_ok ext) /\
    (List.length (filter is_calloc_ok ext) = 0%nat -> filter is_open ext = []).
Proof.
  intros fstab tr0.
  destruct (identify_runs fstab tr0) as (rc & ext & Hrun & Hshape).
  exists ext. rewrite Hrun. split; [reflexivity|].
  destruct Hshape; unfold identify_log;
    cbn [opened_fds closed_fds flat_map app filter is_free is_calloc_ok
         is_open List.length];
    repeat match goal with
           | H : ?fd < 0 |- context [0 <=? ?fd] =>
               replace (0 <=? fd) with false by (symmetry; apply Z.leb_gt; lia)
           | H : 0 <= ?fd |- context [0 <=? ?fd] =>
               replace (0 <=? fd) with true by (symmetry; apply Z.leb_le; lia)
           end;
    cbn [app]; repeat split; auto; discriminate.
Qed.

(** X5: a declared type that begins neither with "f2fs" nor with "ext4" is
    never recognized: [fs_mgr_identify_fs] still opens and reads the device
    when it can, but returns the nonzero value whatever the device
    holds. *)
Theorem identify_fs_rejects_other_types :
  forall (fstab : fstab_rec) (tr0 : trace),
    String.prefix "f2fs" (fs_type fstab) = false ->
    String.prefix "ext4" (fs_type fstab) = false ->
    fst (fs_mgr_identify_fs fstab tr0)
    = Some (if char_is_signed then -1 else 255).
Proof.
  intros fstab tr0 Hf He.
  destruct (identify_runs fstab tr0) as (rc & ext & Hrun & Hshape).
  rewrite Hrun. cbn [fst].
  destruct Hshape as [|fd Hfd|fd got Hfd Hshort|fd data Hfd Hl Hm
                      |fd data Hfd Hl Hm]; try reflexivity.
  exfalso. unfold identify_matches in Hm.
  assert (Hf' : (strncmp (fs_type fstab) "f2fs" 4 =? 0) = false).
  { apply Z.eqb_neq. intros H. apply strncmp_f2fs in H. congruence. }
  assert (He' : (strncmp (fs_type fstab) "ext4" 4 =? 0) = false).
  { apply Z.eqb_neq. intros H. apply strncmp_ext4 in H. congruence. }
  rewrite Hf', He' in Hm. discriminate.
Qed.

(** ** Blank devices *)

Lemma byte_at_blank (n : nat) (off : Z) : byte_at (repeat x00 n) off = 0.
Proof.
  unfold byte_at. destruct (off <? 0); [reflexivity|].
  now rewrite nth_repeat.
Qed.

(** ** format_ext4: more of its behaviour *)

Lemma filter_blksize_events (f : event -> bool) :
  (forall lvl fmt, f (EvLog lvl fmt) = false) ->
  filter f blksize_events = [].
Proof.
  intros Hf. unfold blksize_events, check_fs_blksize.
  destruct (_ && _); unfold_calls; cbn; [now rewrite Hf | reflexivity].
Qed.

Lemma flat_map_blksize_events (A : Type) (f : event -> list A) :
  (forall lvl fmt, f (EvLog lvl fmt) = []) ->
  flat_map f blksize_events = [].
Proof.
  intros Hf. unfold blksize_events, check_fs_blksize.
  destruct (_ && _); unfold_calls; cbn; [now rewrite Hf | reflexivity].
Qed.

(** X7: [format_ext4] runs the ext4 builder at most once, and its value is
    the builder's own integer, unchanged (it is not folded to 0 or -1 as on
    the f2fs path); when the builder is not run, because the open, the size
    query or the seek failed, the value is -1. *)
Theorem format_ext4_returns_the_builder_code :
  forall (blk mnt : string) (nf : bool) (tr0 : trace),
  exists rc ext,
    format_ext4 blk mnt nf tr0 = (rc, tr0 ++ ext) /\
    ((exists fd len, filter is_make_ext4fs ext = [EvMakeExt4fs fd len mnt rc])
     \/ (filter is_make_ext4fs ext = [] /\ rc = -1)).
Proof.
  intros blk mnt nf tr0.
  destruct (format_ext4_runs blk mnt nf tr0) as (rc & ext & Hrun & Hshape).
  exists rc, ext. split; [exact Hrun|].
  destruct Hshape; unfold builder_log;
    repeat match goal with
           | |- context [negb ?c] => destruct c; cbn [negb]
           end;
    rewrite filter_app, filter_blksize_events by reflexivity;
    cbn [app filter is_make_ext4fs]; eauto.
Qed.

(** X8: on every path of [format_ext4] that reaches the ext4 builder, the
    descriptor handed to [make_ext4fs_internal] has been closed before the
    call, and it is closed a second time after it: one open, two closes. *)
Theorem format_ext4_builder_gets_a_closed_descriptor :
  forall (blk mnt : string) (nf : bool) (fd len : Z) (m : string) (rc : Z),
    In (EvMakeExt4fs fd len m rc) (trace_of (format_ext4 blk mnt nf)) ->
    exists before after,
      trace_of (format_ext4 blk mnt nf)
      = before ++ EvMakeExt4fs fd len m rc :: after /\
      In (EvClose fd) before /\
      In (EvClose fd) after /\
      opened_fds (trace_of (format_ext4 blk mnt nf)) = [fd] /\
      closed_fds (trace_of (format_ext4 blk mnt nf)) = [fd; fd].
Proof.
  intros blk mnt nf fd len m rc H.
  pose proof (format_ext4_trace blk mnt nf) as Hrun.
  set (tr := trace_of _) in *. set (rc0 := result_of _) in *.
  clearbody tr rc0.
  destruct Hrun as [nf fd' Hfd
                   |nf fd' nr Hfd
                   |fd' r nr Hfd Hr Hnr
                   |fd' r nr r' w rc' Hfd Hr Hnr Hr'
                   |fd' r nr rc' Hfd Hr Hnr].
  - in_run H.
  - in_run H.
  - in_run H.
  - assert (Hev : EvMakeExt4fs fd' (nr * 512) mnt rc'
                  = EvMakeExt4fs fd len m rc)
      by (in_run H; exact H).
    inversion Hev; subst. clear H Hev.
    exists (blksize_events
            ++ [EvOpen blk O_RDWR fd; EvBlkGetSize fd r nr;
                EvLog LOG_INFO "Wiping old crypto info.\n";
                EvLseek64 fd (sint64 (nr * 512 - CRYPT_FOOTER_OFFSET)) r';
                EvWrite fd zeroed_crypt_ftr w; EvClose fd;
                EvResetExt4fsInfo]),
           (builder_log rc ++ [EvClose fd]).
    split; [now rewrite <- !app_assoc|].
    split; [apply in_or_app; right; simpl; auto 10|].
    split; [apply in_or_app; right; simpl; auto|].
    unfold opened_fds, closed_fds, builder_log.
    rewrite !flat_map_app, !flat_map_blksize_events by reflexivity.
    replace (0 <=? fd) with true by (symmetry; apply Z.leb_le; lia).
    destruct (negb (rc =? 0)); cbn; auto.
    all: replace (0 <=? fd) with true by (symmetry; apply Z.leb_le; lia);
      auto.
  - assert (Hev : EvMakeExt4fs fd' (nr * 512) mnt rc'
                  = EvMakeExt4fs fd len m rc)
      by (in_run H; exact H).
    inversion Hev; subst. clear H Hev.
    exists (blksize_events
            ++ [EvOpen blk O_RDWR fd; EvBlkGetSize fd r nr; EvClose fd;
                EvResetExt4fsInfo]),
           (builder_log rc ++ [EvClose fd]).
    split; [now rewrite <- !app_assoc|].
    split; [apply in_or_app; right; simpl; auto 10|].
    split; [apply in_or_app; right; simpl; auto|].
    unfold opened_fds, closed_fds, builder_log.
    rewrite !flat_map_app, !flat_map_blksize_events by reflexivity.
    destruct (negb (rc =? 0)); cbn;
      replace (0 <=? fd) with true by (symmetry; apply Z.leb_le; lia);
      auto.
Qed.

(** ** format_f2fs: more of its behaviour *)

(** The status the kernel stores for a child that called [exit(e)]. *)
Lemma exit_status_macros (e : Z) :
  0 <= e < 256 ->
  WIFEXITED (e * 256) = true /\ WEXITSTATUS (e * 256) = e.
Proof.
  intros He. unfold WIFEXITED, WTERMSIG, WEXITSTATUS.
  change 256 with (2 ^ 8). rewrite <- Z.shiftl_mul_pow2 by lia.
  split.
  - apply Z.eqb_eq. change 0x7f with (Z.ones 7).
    rewrite Z.land_ones by lia. rewrite Z.shiftl_mul_pow2 by lia.
    change (2 ^ 8) with (2 * 2 ^ 7). rewrite Z.mul_assoc.
    apply Z.mod_mul. lia.
  - change 0xff00 with (Z.shiftl (Z.ones 8) 8).
    rewrite <- Z.shiftl_land, Z.land_ones by lia.
    rewrite Z.mod_small by (change (2 ^ 8) with 256; lia).
    rewrite Z.shiftr_shiftl_l by lia. now rewrite Z.sub_diag.
Qed.

(** The status the kernel stores for a child killed by signal [sig]. *)
Lemma signal_status_macros (sig : Z) :
  1 <= sig < 127 -> WIFEXITED sig = false.
Proof.
  intros Hs. unfold WIFEXITED, WTERMSIG. apply Z.eqb_neq.
  change 0x7f with (Z.ones 7). rewrite Z.land_ones by lia.
  rewrite Z.mod_small by (change (2 ^ 7) with 128; lia). lia.
Qed.

(** X10: the exit code of [mkfs.f2fs] decides the result.  Whenever
    [waitpid] answers with the child's pid and the status of a child that
    called [exit(e)] (the status [e << 8], [0 <= e < 256]), the loop ends
    with 0 if [e] is 0 and with -1 otherwise, after that one wait. *)
Theorem f2fs_wait_maps_exit_code :
  forall (fuel : nat) (pid rc e : Z) (tr : trace),
    0 <= e < 256 ->
    os_waitpid os tr pid = (pid, Some (e * 256)) ->
    f2fs_wait (S fuel) pid rc tr
    = (Some (if e =? 0 then 0 else -1),
       tr ++ [EvWaitpid pid pid (Some (e * 256));
              EvLog LOG_INFO "%s done, status %d\n"]).
Proof.
  intros fuel pid rc e tr He Hw.
  destruct (exit_status_macros e He) as [Hex Hst].
  rewrite f2fs_wait_exited; rewrite Hw; cbn [fst snd stored_status]; auto.
  unfold exit_status_to_rc, wait_done_events. cbn [fst snd].
  now rewrite Hst.
Qed.

(** X11: a child killed by a signal ends in failure, after two waits.  The
    first answer carries the child's pid and a status that is not an exit:
    the loop logs that it is still waiting and calls [waitpid] again; when
    that second call does not return the child's pid (the child is gone),
    the result is -1. *)
Theorem f2fs_wait_killed_child_fails :
  forall (fuel : nat) (pid rc sig : Z) (tr : trace),
    1 <= sig < 127 ->
    os_waitpid os tr pid = (pid, Some sig) ->
    fst (os_waitpid os (tr ++ wait_again_events pid (pid, Some sig)) pid)
    <> pid ->
    fst (f2fs_wait (S (S fuel)) pid rc tr) = Some (-1) /\
    nwaits (snd (f2fs_wait (S (S fuel)) pid rc tr)) = (nwaits tr + 2)%nat.
Proof.
  intros fuel pid rc sig tr Hsig Hw Hnext.
  rewrite f2fs_wait_again.
  2:{ unfold still_waiting. rewrite Hw. cbn [fst snd stored_status].
      rewrite Z.eqb_refl, (signal_status_macros sig Hsig). reflexivity. }
  rewrite Hw. cbn [snd stored_status].
  rewrite f2fs_wait_mismatch by exact Hnext. cbn [fst snd].
  split; [reflexivity|]. rewrite !nwaits_app. cbn. lia.
Qed.

(** X12: a failed [fork] is not noticed.  When [fork] answers -1,
    [format_f2fs] calls [waitpid(-1, ...)]; if that call fails too,
    answering -1 and storing no status (there is no child), the returned
    pid equals [pid], the untouched [rc = 0] reads as a clean exit, and
    [format_f2fs] returns 0 although [mkfs.f2fs] was never run. *)
Theorem format_f2fs_reports_success_when_fork_fails :
  forall (fuel : nat) (blk : string) (nf : bool) (tr : trace),
    os_fork os tr = -1 ->
    os_waitpid os (tr ++ [EvFork (-1)]) (-1) = (-1, None) ->
    format_f2fs (S fuel) blk nf tr
    = (Some (Returns 0),
       tr ++ [EvFork (-1); EvWaitpid (-1) (-1) None;
              EvLog LOG_INFO "%s done, status %d\n"]).
Proof.
  intros fuel blk nf tr Hfork Hw.
  rewrite format_f2fs_parent by (rewrite Hfork; discriminate).
  rewrite Hfork.
  rewrite f2fs_wait_exited; rewrite Hw; cbn [fst snd stored_status]; auto.
  unfold wait_done_events. cbn [fst snd option_map].
  now rewrite <- app_assoc.
Qed.

(** X13: [format_f2fs] itself never touches the device: all it does is
    fork, call [execv] (in the child only), wait and log.  In the parent
    no [execv] is called, and a value it produces is a return value. *)
Theorem format_f2fs_only_forks_and_waits :
  forall (fuel : nat) (blk : string) (nf : bool) (tr : trace),
  exists r ext,
    format_f2fs fuel blk nf tr = (r, tr ++ ext) /\
    Forall (fun ev => is_f2fs_subprocess ev || is_log ev = true) ext /\
    (os_fork os tr <> 0 ->
     (forall p argv b, ~ In (EvExecv p argv b) ext) /\
     (r = None \/ exists rc, r = Some (Returns rc))).
Proof.
  intros fuel blk nf tr.
  destruct (Z.eq_dec (os_fork os tr) 0) as [Hfork|Hfork].
  - destruct (format_f2fs_child fuel blk nf tr Hfork) as [b Hb].
    eexists _, _. split; [exact Hb|]. split; [repeat constructor|].
    intros H. contradiction.
  - rewrite format_f2fs_parent by assumption.
    destruct (f2fs_wait_runs fuel (os_fork os tr) 0
                             (tr ++ [EvFork (os_fork os tr)]))
      as (r & ext & Hrun & Hev & _ & _).
    rewrite Hrun. cbn [fst snd]. rewrite <- app_assoc.
    eexists _, _. split; [reflexivity|]. split.
    + apply Forall_app. split; [repeat constructor|].
      revert Hev. apply Forall_impl. intros ev H.
      destruct ev; try discriminate; reflexivity.
    + intros _. split.
      * intros p argv b [H|H]; [discriminate H|].
        apply (proj1 (Forall_forall _ _) Hev) in H. discriminate H.
      * destruct r as [v|]; [right; exists v; reflexivity | now left].
Qed.

(** ** Where the footer is *)

Lemma format_ext4_seek_position (blk mnt : string) (nf : bool)
      (rc : Z) (ext : trace) (fd r nr fd' off s : Z) :
  format_ext4_run blk mnt nf rc ext ->
  In (EvBlkGetSize fd r nr) ext ->
  In (EvLseek64 fd' off s) ext ->
  fd' = fd /\ off = sint64 (nr * 512 - CRYPT_FOOTER_OFFSET).
Proof.
  intros Hrun H1 H2.
  destruct Hrun; in_run H1; inversion H1; subst; in_run H2;
    inversion H2; subst; split; reflexivity.
Qed.

Lemma encrypted_seek_position (fstab : fstab_rec) (r0 : outcome)
      (ext : trace) (fd r nr fd' off s : Z) :
  encrypted_run fstab r0 ext ->
  In (EvBlkGetSize fd r nr) ext ->
  In (EvLseek64 fd' off s) ext ->
  fd' = fd /\ off = sint64 (nr * 512 - CRYPT_FOOTER_OFFSET).
Proof.
  intros Hrun H1 H2.
  destruct Hrun; in_trace H1; inversion H1; subst; in_trace H2;
    inversion H2; subst; split; reflexivity.
Qed.

Lemma format_ext4_written_record (blk mnt : string) (nf : bool)
      (rc : Z) (ext : trace) (fd : Z) (buf : list byte) (w : Z) :
  format_ext4_run blk mnt nf rc ext ->
  In (EvWrite fd buf w) ext ->
  buf = repeat x00 sizeof_crypt_mnt_ftr.
Proof.
  intros Hrun H. destruct Hrun; in_run H; inversion H; subst; reflexivity.
Qed.

(** X14: the wipe and the probe agree on where the footer is.  For one and
    the same sector count, the position [format_ext4] seeks to before it
    writes the zeroed record is the position at which
    [fs_mgr_is_partition_encrypted] looks for the magic; and, the record
    having at least four bytes, what [format_ext4] writes there begins with
    four zero bytes, which are not the magic. *)
Theorem wipe_and_probe_agree_on_the_footer :
  forall (fstab : fstab_rec) (blk mnt : string) (nf : bool)
         (tr1 tr2 : trace),
    (4 <= sizeof_crypt_mnt_ftr)%nat ->
    exists ext1 ext2,
      snd (format_ext4 blk mnt nf tr1) = tr1 ++ ext1 /\
      snd (fs_mgr_is_partition_encrypted fstab tr2) = tr2 ++ ext2 /\
      (forall fd1 r1 fd2 r2 nr fd1' off1 s1 fd2' off2 s2,
          In (EvBlkGetSize fd1 r1 nr) ext1 ->
          In (EvBlkGetSize fd2 r2 nr) ext2 ->
          In (EvLseek64 fd1' off1 s1) ext1 ->
          In (EvLseek64 fd2' off2 s2) ext2 ->
          off1 = off2) /\
      (forall fd buf w,
          In (EvWrite fd buf w) ext1 ->
          firstn 4 buf = [x00; x00; x00; x00] /\
          le32_at buf 0 <> CRYPT_MAGIC).
Proof.
  intros fstab blk mnt nf tr1 tr2 Hsize.
  destruct (format_ext4_runs blk mnt nf tr1) as (rc & ext1 & Hrun1 & Hs1).
  destruct (encrypted_runs fstab tr2) as (r & ext2 & Hrun2 & Hs2).
  exists ext1, ext2. rewrite Hrun1, Hrun2.
  split; [reflexivity|]. split; [reflexivity|]. split.
  - intros fd1 r1 fd2 r2 nr fd1' off1 s1 fd2' off2 s2 Hb1 Hb2 Hl1 Hl2.
    destruct (format_ext4_seek_position _ _ _ _ _ _ _ _ _ _ _ Hs1 Hb1 Hl1)
      as [_ ->].
    destruct (encrypted_seek_position _ _ _ _ _ _ _ _ _ Hs2 Hb2 Hl2)
      as [_ ->].
    reflexivity.
  - intros fd buf w Hw.
    rewrite (format_ext4_written_record _ _ _ _ _ _ _ _ Hs1 Hw).
    split.
    + destruct sizeof_crypt_mnt_ftr as [|[|[|[|n]]]]; try lia. reflexivity.
    + unfold le32_at. rewrite !byte_at_blank. discriminate.
Qed.

(** ** The footer requirement *)

Lemma needs_footer_of_false (fstab : fstab_rec) :
  (forall kl, key_loc fstab = Some kl ->
              c_string kl /\ kl <> CRYPT_KEY_IN_FOOTER) ->
  needs_footer_of fstab = false.
Proof.
  intros H. unfold needs_footer_of.
  destruct (key_loc fstab) as [kl|]; [|reflexivity].
  destruct (H kl eq_refl) as [Hc Hne].
  apply Z.eqb_neq. intros Heq. apply Hne. apply strcmp_eq; auto.
  unfold c_string, CRYPT_KEY_IN_FOOTER. simpl. intuition discriminate.
Qed.

Lemma filter_nil_forall (f : event -> bool) (l : trace) :
  filter f l = [] -> Forall (fun ev => f ev = false) l.
Proof.
  induction l as [|ev l IH]; intros H; [constructor|].
  cbn in H. destruct (f ev) eqn:E; [discriminate|]. constructor; auto.
Qed.

Lemma format_ext4_run_no_footer_no_wipe (blk mnt : string) (rc : Z)
      (ext : trace) :
  format_ext4_run blk mnt false rc ext ->
  Forall (fun ev => is_wipe_call ev = false) ext.
Proof.
  intros Hrun. remember false as nf eqn:Hnf.
  destruct Hrun; try discriminate Hnf; try subst nf; unfold builder_log;
    repeat match goal with
           | |- context [negb ?c] => destruct c; cbn [negb]
           end;
    (apply Forall_app; split;
     [generalize blksize_events_are_logs; apply Forall_impl;
      intros ev Hev; destruct ev; try discriminate; reflexivity
     |repeat constructor]).
Qed.

(** X15: without the key location "footer" there is no footer.  When the
    key location of the descriptor is NULL or any C string other than
    "footer" (a path, say), [fs_mgr_do_format] neither seeks nor writes on
    the device itself, whatever the declared type, and the arguments it
    gives to [mkfs.f2fs] reserve nothing: they are "-r", "0" and the
    device. *)
Theorem do_format_without_footer_key :
  forall (fuel : nat) (fstab : fstab_rec),
    (forall kl, key_loc fstab = Some kl ->
                c_string kl /\ kl <> CRYPT_KEY_IN_FOOTER) ->
    Forall (fun ev => is_wipe_call ev = false)
           (trace_of (fs_mgr_do_format fuel fstab)) /\
    (forall p argv b,
        In (EvExecv p argv b) (trace_of (fs_mgr_do_format fuel fstab)) ->
        argv = ["/sbin/mkfs.f2fs"; "-r"; "0"; blk_device fstab]).
Proof.
  intros fuel fstab Hkey.
  pose proof (needs_footer_of_false fstab Hkey) as Hnf.
  unfold trace_of, fs_mgr_do_format. rewrite Hnf.
  unfold bind, ERROR, emit, pure. cbn [app].
  destruct (strncmp (fs_type fstab) "f2fs" 4 =? 0).
  - destruct (Z.eq_dec (os_fork os [EvLog LOG_ERROR "Formatting %s as '%s'%s.\n"]) 0)
      as [Hfork|Hfork].
    + destruct (format_f2fs_child fuel (blk_device fstab) false _ Hfork)
        as [b Hb].
      rewrite Hb. cbn [snd app]. split; [repeat constructor|].
      intros p argv b' Hin. in_trace Hin. inversion Hin; subst. reflexivity.
    + rewrite format_f2fs_parent by assumption.
      destruct (f2fs_wait_runs
                  fuel
                  (os_fork os [EvLog LOG_ERROR "Formatting %s as '%s'%s.\n"])
                  0
                  ([EvLog LOG_ERROR "Formatting %s as '%s'%s.\n"]
                   ++ [EvFork (os_fork os [EvLog LOG_ERROR
                                             "Formatting %s as '%s'%s.\n"])]))
        as (r & ext & Hrun & Hev & _ & _).
      rewrite Hrun. cbn [snd app]. split.
      * constructor; [reflexivity|]. constructor; [reflexivity|].
        revert Hev. apply Forall_impl.
        intros ev H. destruct ev; try discriminate; reflexivity.
      * intros p argv b [Hin|[Hin|Hin]]; try discriminate Hin.
        exfalso. apply (proj1 (Forall_forall _ _) Hev) in Hin.
        discriminate Hin.
  - destruct (strncmp (fs_type fstab) "ext4" 4 =? 0).
    + destruct (format_ext4_runs (blk_device fstab) (mount_point fstab) false
                  [EvLog LOG_ERROR "Formatting %s as '%s'%s.\n"])
        as (rc & ext & Hrun & Hshape).
      rewrite Hrun. cbn [snd app]. split.
      * constructor; [reflexivity|].
        exact (format_ext4_run_no_footer_no_wipe _ _ _ _ Hshape).
      * intros p argv b [Hin|Hin]; [discriminate Hin|].
        exfalso.
        pose proof (format_ext4_run_no_subprocess _ _ _ _ _ Hshape) as Hno.
        apply (proj1 (Forall_forall _ _) Hno) in Hin. discriminate Hin.
    + cbn [snd app]. split; [repeat constructor|].
      intros p argv b Hin. in_trace Hin.
Qed.

(** ** What the scans look at *)

Lemma is_f2fs_zero_or_one_eq (b1 b2 : list byte) :
  (is_f2fs b1 = 1 <-> is_f2fs b2 = 1) -> is_f2fs b1 = is_f2fs b2.
Proof.
  destruct (is_f2fs_spec b1) as [[H1|H1] _],
           (is_f2fs_spec b2) as [[H2|H2] _]; rewrite H1, H2; intros [Ha Hb];
    try reflexivity.
  - exact (Hb eq_refl).
  - symmetry. exact (Ha eq_refl).
Qed.

(** X16: the scans look at the magic fields and nowhere else.  Two blocks
    whose sixteen sectors begin with the same four bytes get the same
    answer from [is_f2fs]; two blocks that agree on the two bytes of
    [s_magic] in every superblock-sized structure of the window get the
    same answer from [is_ext4].  A magic that lies anywhere else is not
    seen. *)
Theorem scans_read_only_the_magic_fields :
  forall b1 b2 : list byte,
    ((forall i j, 0 <= i < 16 -> 0 <= j < 4 ->
                  byte_at b1 (i * 512 + j) = byte_at b2 (i * 512 + j)) ->
     is_f2fs b1 = is_f2fs b2)
    /\
    ((forall k j, 0 <= k -> k * Z.pos sizeof_ext4_super_block < 8192 ->
                  0 <= j < 2 ->
                  byte_at b1 (k * Z.pos sizeof_ext4_super_block
                              + offsetof_s_magic + j)
                  = byte_at b2 (k * Z.pos sizeof_ext4_super_block
                                + offsetof_s_magic + j)) ->
     is_ext4 b1 = is_ext4 b2).
Proof.
  intros b1 b2. split.
  - intros Hsame. apply is_f2fs_zero_or_one_eq.
    assert (Hle : forall i, 0 <= i < 16 ->
                            le32_at b1 (i * 512) = le32_at b2 (i * 512)).
    { intros i Hi. unfold le32_at.
      rewrite <- (Z.add_0_r (i * 512)) at 1 5.
      rewrite !Hsame by lia. now rewrite Z.add_0_r. }
    rewrite (proj2 (is_f2fs_spec b1)), (proj2 (is_f2fs_spec b2)).
    split; intros (i & Hi & Hm); exists i; split; auto;
      [rewrite <- Hle | rewrite Hle]; auto.
  - intros Hsame.
    assert (Hle : forall k, 0 <= k ->
                            k * Z.pos sizeof_ext4_super_block < 8192 ->
                            le16_at b1 (k * Z.pos sizeof_ext4_super_block
                                        + offsetof_s_magic)
                            = le16_at b2 (k * Z.pos sizeof_ext4_super_block
                                          + offsetof_s_magic)).
    { intros k Hk Hlt. unfold le16_at.
      rewrite <- (Z.add_0_r (k * Z.pos sizeof_ext4_super_block
                             + offsetof_s_magic)) at 1 3.
      rewrite !Hsame by lia. now rewrite Z.add_0_r. }
    destruct (is_ext4_spec b1) as (r1 & Hr1 & H01 & Hiff1).
    destruct (is_ext4_spec b2) as (r2 & Hr2 & H02 & Hiff2).
    rewrite Hr1, Hr2. f_equal.
    assert (Hboth : r1 = 1 <-> r2 = 1).
    { rewrite Hiff1, Hiff2.
      split; intros (k & Hk & Hlt & Hm); exists k; repeat split; auto;
        [rewrite <- Hle | rewrite Hle]; auto. }
    destruct H01, H02; subst; try reflexivity; destruct Hboth as [Ha Hb].
    + exact (Hb eq_refl).
    + symmetry. exact (Ha eq_refl).
Qed.

(** ** More on fs_mgr_identify_fs and format_ext4 *)

(** X17: [fs_mgr_identify_fs] does not change the device: it opens it
    read-only, reads at most once (8192 bytes, from the start: it never
    seeks), and apart from that only allocates, frees, closes and logs. *)
Theorem identify_fs_never_writes :
  forall (fstab : fstab_rec) (tr0 : trace),
  exists ext,
    snd (fs_mgr_identify_fs fstab tr0) = tr0 ++ ext /\
    Forall (fun ev => is_identify_call ev = true) ext /\
    (forall fd n got, In (EvRead fd n got) ext -> n = Z.to_nat 8192) /\
    (List.length (filter (fun ev => match ev with
                                    | EvRead _ _ _ => true
                                    | _ => false
                                    end) ext) <= 1)%nat.
Proof.
  intros fstab tr0.
  destruct (identify_runs fstab tr0) as (rc & ext & Hrun & Hshape).
  exists ext. rewrite Hrun. split; [reflexivity|].
  destruct Hshape; unfold identify_log; (split; [repeat constructor|]);
    (split; [intros fd' n' got' Hin; in_trace Hin;
             inversion Hin; reflexivity
            |cbn [filter List.length]; lia]).
Qed.

(** X18: when [format_ext4] does not reach the builder (the open, the size
    query or the seek failed) it returns -1 and has closed exactly the
    descriptor it opened, once; after a failed open nothing is closed. *)
Theorem format_ext4_failures_close_once :
  forall (blk mnt : string) (nf : bool) (tr0 : trace),
  exists rc ext,
    format_ext4 blk mnt nf tr0 = (rc, tr0 ++ ext) /\
    (filter is_make_ext4fs ext = [] ->
     rc = -1 /\ closed_fds ext = opened_fds ext /\
     (List.length (opened_fds ext) <= 1)%nat).
Proof.
  intros blk mnt nf tr0.
  destruct (format_ext4_runs blk mnt nf tr0) as (rc & ext & Hrun & Hshape).
  exists rc, ext. split; [exact Hrun|].
  destruct Hshape; unfold builder_log;
    repeat match goal with
           | |- context [negb ?c] => destruct c; cbn [negb]
           end;
    rewrite filter_app, filter_blksize_events by reflexivity;
    cbn [app filter is_make_ext4fs]; intros Hnone; try discriminate Hnone;
    (split; [reflexivity|]);
    unfold opened_fds, closed_fds;
    rewrite !flat_map_app, !flat_map_blksize_events by reflexivity;
    cbn [flat_map app];
    repeat match goal with
           | H : ?fd < 0 |- context [0 <=? ?fd] =>
               replace (0 <=? fd) with false by (symmetry; apply Z.leb_gt; lia)
           | H : 0 <= ?fd |- context [0 <=? ?fd] =>
               replace (0 <=? fd) with true by (symmetry; apply Z.leb_le; lia)
           end;
    cbn [app List.length]; split; auto.
Qed.

(** ** The magic values as bytes *)

Lemma byte_at_range (block : list byte) (off : Z) :
  0 <= byte_at block off < 256.
Proof.
  unfold byte_at. destruct (off <? 0); [lia|]. unfold byte_val.
  pose proof (to_N_bounded (nth (Z.to_nat off) block x00)). lia.
Qed.

Lemma lor_shiftl_add (a b n : Z) :
  0 <= n -> 0 <= a < 2 ^ n -> Z.lor a (Z.shiftl b n) = a + b * 2 ^ n.
Proof.
  intros Hn Ha.
  assert (Hland : Z.land a (Z.shiftl b n) = 0).
  { apply Z.bits_inj'. intros m Hm. rewrite Z.land_spec, Z.bits_0.
    destruct (Z.lt_ge_cases m n) as [Hlt|Hge].
    - rewrite Z.shiftl_spec_low by assumption. apply andb_false_r.
    - rewrite <- (Z.mod_small a (2 ^ n)) by assumption.
      rewrite Z.mod_pow2_bits_high by lia. reflexivity. }
  pose proof (Z.add_lor_land a (Z.shiftl b n)) as H.
  rewrite Hland, Z.add_0_r in H. rewrite H.
  now rewrite Z.shiftl_mul_pow2 by assumption.
Qed.

Lemma le16_at_sum (block : list byte) (off : Z) :
  le16_at block off = byte_at block off + byte_at block (off + 1) * 256.
Proof.
  unfold le16_at. pose proof (byte_at_range block off).
  rewrite lor_shiftl_add by (change (2 ^ 8) with 256; lia). reflexivity.
Qed.

Lemma le32_at_sum (block : list byte) (off : Z) :
  le32_at block off
  = byte_at block off + byte_at block (off + 1) * 256
    + byte_at block (off + 2) * 65536 + byte_at block (off + 3) * 16777216.
Proof.
  unfold le32_at.
  pose proof (byte_at_range block off).
  pose proof (byte_at_range block (off + 1)).
  pose proof (byte_at_range block (off + 2)).
  replace (Z.shiftl (byte_at block (off + 3)) 24)
    with (Z.shiftl (Z.shiftl (byte_at block (off + 3)) 8) 16)
    by (rewrite Z.shiftl_shiftl by lia; reflexivity).
  rewrite <- Z.shiftl_lor.
  rewrite (lor_shiftl_add (byte_at block off)) by (change (2 ^ 8) with 256; lia).
  rewrite (lor_shiftl_add (byte_at block (off + 2)))
    by (change (2 ^ 8) with 256; lia).
  rewrite lor_shiftl_add by (change (2 ^ 8) with 256 in *;
                             change (2 ^ 16) with 65536; lia).
  change (2 ^ 8) with 256. change (2 ^ 16) with 65536. lia.
Qed.

(** X19: the magic values as they lie on the device.  A load finds the
    encryption magic exactly on the bytes C4 B1 B5 D0, the f2fs magic
    exactly on 10 20 F5 F2, and the ext4 magic exactly on 53 EF, in this
    order: least significant byte first. *)
Theorem magic_values_as_bytes :
  forall (block : list byte) (off : Z),
    (le32_at block off = CRYPT_MAGIC <->
     byte_at block off = 0xC4 /\ byte_at block (off + 1) = 0xB1 /\
     byte_at block (off + 2) = 0xB5 /\ byte_at block (off + 3) = 0xD0)
    /\
    (le32_to_cpu (le32_at block off) = F2FS_SUPER_MAGIC <->
     byte_at block off = 0x10 /\ byte_at block (off + 1) = 0x20 /\
     byte_at block (off + 2) = 0xF5 /\ byte_at block (off + 3) = 0xF2)
    /\
    (le32_to_cpu (le16_at block off) = EXT4_SUPER_MAGIC <->
     byte_at block off = 0x53 /\ byte_at block (off + 1) = 0xEF).
Proof.
  intros block off. unfold le32_to_cpu.
  rewrite le32_at_sum, le16_at_sum.
  pose proof (byte_at_range block off).
  pose proof (byte_at_range block (off + 1)).
  pose proof (byte_at_range block (off + 2)).
  pose proof (byte_at_range block (off + 3)).
  unfold CRYPT_MAGIC, F2FS_SUPER_MAGIC, EXT4_SUPER_MAGIC.
  repeat split; lia.
Qed.

(** ** Loads, byte by byte *)

Lemma byte_val_inj (a b : byte) : byte_val a = byte_val b -> a = b.
Proof.
  unfold byte_val. intros H. apply N2Z.inj in H.
  pose proof (of_to_N a) as Ha. pose proof (of_to_N b) as Hb.
  rewrite H in Ha. congruence.
Qed.

Lemma byte_at_nth_error (block : list byte) (off : Z) :
  0 <= off < Z.of_nat (List.length block) ->
  exists b, nth_error block (Z.to_nat off) = Some b /\
            byte_at block off = Z.of_N (to_N b).
Proof.
  intros Hoff. exists (nth (Z.to_nat off) block x00). split.
  - apply nth_error_nth'. lia.
  - unfold byte_at, byte_val.
    destruct (off <? 0) eqn:E; [apply Z.ltb_lt in E; lia | reflexivity].
Qed.

(** A 32-bit little-endian load inside the block, in terms of the four
    bytes it covers. *)
Lemma le32_at_bytes (block : list byte) (off v : Z) :
  0 <= off -> off + 3 < Z.of_nat (List.length block) ->
  (le32_at block off = v <->
   exists b0 b1 b2 b3,
     nth_error block (Z.to_nat off) = Some b0 /\
     nth_error block (Z.to_nat (off + 1)) = Some b1 /\
     nth_error block (Z.to_nat (off + 2)) = Some b2 /\
     nth_error block (Z.to_nat (off + 3)) = Some b3 /\
     Z.of_N (to_N b0) + 256 * Z.of_N (to_N b1) + 65536 * Z.of_N (to_N b2)
     + 16777216 * Z.of_N (to_N b3) = v).
Proof.
  intros Hlo Hhi. rewrite le32_at_sum.
  destruct (byte_at_nth_error block off) as (c0 & Hn0 & Hv0); [lia|].
  destruct (byte_at_nth_error block (off + 1)) as (c1 & Hn1 & Hv1); [lia|].
  destruct (byte_at_nth_error block (off + 2)) as (c2 & Hn2 & Hv2); [lia|].
  destruct (byte_at_nth_error block (off + 3)) as (c3 & Hn3 & Hv3); [lia|].
  rewrite Hv0, Hv1, Hv2, Hv3. split.
  - intros H. exists c0, c1, c2, c3. repeat split; auto. lia.
  - intros (b0 & b1 & b2 & b3 & H0 & H1 & H2 & H3 & H).
    rewrite Hn0 in H0. rewrite Hn1 in H1. rewrite Hn2 in H2.
    rewrite Hn3 in H3. inversion H0; inversion H1; inversion H2;
      inversion H3; subst. lia.
Qed.

Lemma le16_at_bytes (block : list byte) (off v : Z) :
  0 <= off -> off + 1 < Z.of_nat (List.length block) ->
  (le16_at block off = v <->
   exists b0 b1,
     nth_error block (Z.to_nat off) = Some b0 /\
     nth_error block (Z.to_nat (off + 1)) = Some b1 /\
     Z.of_N (to_N b0) + 256 * Z.of_N (to_N b1) = v).
Proof.
  intros Hlo Hhi. rewrite le16_at_sum.
  destruct (byte_at_nth_error block off) as (c0 & Hn0 & Hv0); [lia|].
  destruct (byte_at_nth_error block (off + 1)) as (c1 & Hn1 & Hv1); [lia|].
  rewrite Hv0, Hv1. split.
  - intros H. exists c0, c1. repeat split; auto. lia.
  - intros (b0 & b1 & H0 & H1 & H).
    rewrite Hn0 in H0. rewrite Hn1 in H1.
    inversion H0; inversion H1; subst. lia.
Qed.

Lemma window_length (block : list byte) :
  List.length block = Z.to_nat 8192 -> Z.of_nat (List.length block) = 8192.
Proof. intros H. rewrite H. reflexivity. Qed.

(** C3: when the 8192 bytes [block] have been read from the start of the
    device and the declared type is "f2fs" (begins with these four
    characters, which is all the code compares), [fs_mgr_identify_fs]
    returns 0 or the widened [char] -1, and it returns 0 (a match) if and
    only if one of the sixteen 512-byte sectors of [block] begins with four
    bytes [b0 b1 b2 b3] that,
    read as a little-endian 32-bit integer
    ([b0 + 2^8 b1 + 2^16 b2 + 2^24 b3]), are 0xF2F52010. *)
Theorem identify_f2fs_iff_magic_in_a_sector :
  forall (fstab : fstab_rec) (fd : Z) (block : list byte),
    String.prefix "f2fs" (fs_type fstab) = true ->
    In (EvRead fd (Z.to_nat 8192) (Some block))
       (trace_of (fs_mgr_identify_fs fstab)) ->
    List.length block = Z.to_nat 8192 ->
    exists rc,
      result_of (fs_mgr_identify_fs fstab) = Some rc /\
      (rc = 0 \/ rc = if char_is_signed then -1 else 255) /\
      (rc = 0 <->
       exists (i : nat) (b0 b1 b2 b3 : byte),
         (i < 16)%nat /\
         nth_error block (i * 512) = Some b0 /\
         nth_error block (i * 512 + 1) = Some b1 /\
         nth_error block (i * 512 + 2) = Some b2 /\
         nth_error block (i * 512 + 3) = Some b3 /\
         Z.of_N (to_N b0) + 256 * Z.of_N (to_N b1)
         + 65536 * Z.of_N (to_N b2) + 16777216 * Z.of_N (to_N b3)
         = F2FS_SUPER_MAGIC).
Proof.
  intros fstab fd block Htype Hread Hlen.
  pose proof (window_length block Hlen) as Hlen'.
  rewrite (identify_fs_after_read fstab fd block Hread Hlen).
  unfold identify_matches.
  pose proof (proj2 (strncmp_f2fs (fs_type fstab)) Htype) as Hf.
  pose proof (prefix_f2fs_not_ext4 _ Htype) as Hne.
  assert (He : (strncmp (fs_type fstab) "ext4" 4 =? 0) = false).
  { apply Z.eqb_neq. intros H. apply strncmp_ext4 in H. congruence. }
  rewrite Hf, He. cbn [Z.eqb andb].
  destruct (is_f2fs_spec block) as [H01 Hiff].
  assert (Hbytes :
            (exists i, 0 <= i < 16 /\
                       le32_at block (i * 512) = F2FS_SUPER_MAGIC) <->
            (exists (i : nat) (b0 b1 b2 b3 : byte),
                (i < 16)%nat /\
                nth_error block (i * 512) = Some b0 /\
                nth_error block (i * 512 + 1) = Some b1 /\
                nth_error block (i * 512 + 2) = Some b2 /\
                nth_error block (i * 512 + 3) = Some b3 /\
                Z.of_N (to_N b0) + 256 * Z.of_N (to_N b1)
                + 65536 * Z.of_N (to_N b2) + 16777216 * Z.of_N (to_N b3)
                = F2FS_SUPER_MAGIC)).
  { split.
    - intros (i & Hi & Hm).
      apply le32_at_bytes in Hm; [|lia|lia].
      destruct Hm as (b0 & b1 & b2 & b3 & H0 & H1 & H2 & H3 & Hsum).
      exists (Z.to_nat i), b0, b1, b2, b3.
      replace (Z.to_nat i * 512)%nat with (Z.to_nat (i * 512)) by lia.
      replace (Z.to_nat (i * 512) + 1)%nat with (Z.to_nat (i * 512 + 1))
        by lia.
      replace (Z.to_nat (i * 512) + 2)%nat with (Z.to_nat (i * 512 + 2))
        by lia.
      replace (Z.to_nat (i * 512) + 3)%nat with (Z.to_nat (i * 512 + 3))
        by lia.
      repeat split; auto. lia.
    - intros (i & b0 & b1 & b2 & b3 & Hi & H0 & H1 & H2 & H3 & Hsum).
      exists (Z.of_nat i). split; [lia|].
      apply le32_at_bytes; [lia|lia|].
      exists b0, b1, b2, b3.
      replace (Z.to_nat (Z.of_nat i * 512)) with (i * 512)%nat by lia.
      replace (Z.to_nat (Z.of_nat i * 512 + 1)) with (i * 512 + 1)%nat
        by lia.
      replace (Z.to_nat (Z.of_nat i * 512 + 2)) with (i * 512 + 2)%nat
        by lia.
      replace (Z.to_nat (Z.of_nat i * 512 + 3)) with (i * 512 + 3)%nat
        by lia.
      repeat split; auto. }
  destruct (is_f2fs block =? 0) eqn:E; cbn [negb option_map].
  - apply Z.eqb_eq in E. exists char_minus_one. split; [reflexivity|].
    split; [now right|]. split.
    + intros H. exfalso. now apply char_minus_one_nonzero.
    + intros H. apply (proj2 Hbytes) in H. apply (proj2 Hiff) in H. lia.
  - apply Z.eqb_neq in E. exists 0. split; [reflexivity|].
    split; [now left|].
    split; [|reflexivity]. intros _. apply (proj1 Hbytes).
    apply (proj1 Hiff). lia.
Qed.

(** C4: when the 8192 bytes [block] have been read from the start of the
    device and the declared type is "ext4", [fs_mgr_identify_fs] returns 0
    or the widened [char] -1, and it returns 0 (a match) if and only if,
    for some structure of
    [sizeof(struct ext4_super_block)] bytes that starts inside the window
    (the structures lie end to end from offset 0), the two bytes [b0 b1] of
    its field [s_magic], read as a little-endian integer ([b0 + 2^8 b1]),
    are 0xEF53.  The layout of [ext4.h] is such that the structures tile
    the window. *)
Theorem identify_ext4_iff_magic_in_a_superblock :
  forall (fstab : fstab_rec) (fd : Z) (block : list byte),
    superblocks_tile_the_window ->
    String.prefix "ext4" (fs_type fstab) = true ->
    In (EvRead fd (Z.to_nat 8192) (Some block))
       (trace_of (fs_mgr_identify_fs fstab)) ->
    List.length block = Z.to_nat 8192 ->
    exists rc,
      result_of (fs_mgr_identify_fs fstab) = Some rc /\
      (rc = 0 \/ rc = if char_is_signed then -1 else 255) /\
      (rc = 0 <->
       exists (k : Z) (b0 b1 : byte),
         0 <= k /\
         k * Z.pos sizeof_ext4_super_block < 8192 /\
         nth_error block
                   (Z.to_nat (k * Z.pos sizeof_ext4_super_block
                              + offsetof_s_magic)) = Some b0 /\
         nth_error block
                   (Z.to_nat (k * Z.pos sizeof_ext4_super_block
                              + offsetof_s_magic + 1)) = Some b1 /\
         Z.of_N (to_N b0) + 256 * Z.of_N (to_N b1) = EXT4_SUPER_MAGIC).
Proof.
  intros fstab fd block (Hoff & Hfit & Hdiv) Htype Hread Hlen.
  pose proof (window_length block Hlen) as Hlen'.
  rewrite (identify_fs_after_read fstab fd block Hread Hlen).
  unfold identify_matches.
  pose proof (proj2 (strncmp_ext4 (fs_type fstab)) Htype) as He.
  assert (Hf : (strncmp (fs_type fstab) "f2fs" 4 =? 0) = false).
  { apply Z.eqb_neq. intros H. apply strncmp_f2fs in H.
    apply prefix_f2fs_not_ext4 in H. congruence. }
  rewrite Hf, He. cbn [Z.eqb andb].
  destruct (is_ext4_spec block) as (r & Hr & H01 & Hiff). rewrite Hr.
  cbn [option_map].
  assert (Hin : forall k, 0 <= k ->
                          k * Z.pos sizeof_ext4_super_block < 8192 ->
                          0 <= k * Z.pos sizeof_ext4_super_block
                               + offsetof_s_magic /\
                          k * Z.pos sizeof_ext4_super_block
                          + offsetof_s_magic + 1 < 8192).
  { intros k Hk Hlt. destruct Hdiv as [q Hq].
    change (TOTAL_SECTORS * 512) with 8192 in Hq.
    pose proof (Pos2Z.is_pos sizeof_ext4_super_block) as Hsz.
    set (sz := Z.pos sizeof_ext4_super_block) in *.
    assert (Hkq : k < q) by nia.
    assert (Hnext : (k + 1) * sz <= q * sz) by nia.
    split; nia. }
  assert (Hbytes :
            (exists k, 0 <= k /\
                       k * Z.pos sizeof_ext4_super_block < 8192 /\
                       le16_at block (k * Z.pos sizeof_ext4_super_block
                                      + offsetof_s_magic)
                       = EXT4_SUPER_MAGIC) <->
            (exists (k : Z) (b0 b1 : byte),
                0 <= k /\
                k * Z.pos sizeof_ext4_super_block < 8192 /\
                nth_error block
                          (Z.to_nat (k * Z.pos sizeof_ext4_super_block
                                     + offsetof_s_magic)) = Some b0 /\
                nth_error block
                          (Z.to_nat (k * Z.pos sizeof_ext4_super_block
                                     + offsetof_s_magic + 1)) = Some b1 /\
                Z.of_N (to_N b0) + 256 * Z.of_N (to_N b1)
                = EXT4_SUPER_MAGIC)).
  { split.
    - intros (k & Hk & Hlt & Hm). destruct (Hin k Hk Hlt) as [Hlo Hhi].
      apply le16_at_bytes in Hm; [|lia|lia].
      destruct Hm as (b0 & b1 & H0 & H1 & Hsum).
      exists k, b0, b1. auto.
    - intros (k & b0 & b1 & Hk & Hlt & H0 & H1 & Hsum).
      destruct (Hin k Hk Hlt) as [Hlo Hhi].
      exists k. split; [exact Hk|]. split; [exact Hlt|].
      apply le16_at_bytes; [lia|lia|]. exists b0, b1. auto. }
  destruct (r =? 0) eqn:E; cbn [negb].
  - apply Z.eqb_eq in E. exists char_minus_one. split; [reflexivity|].
    split; [now right|]. split.
    + intros H. exfalso. now apply char_minus_one_nonzero.
    + intros H. apply (proj2 Hbytes) in H. apply (proj2 Hiff) in H. lia.
  - apply Z.eqb_neq in E. exists 0. split; [reflexivity|].
    split; [now left|].
    split; [|reflexivity]. intros _. apply (proj1 Hbytes).
    apply (proj1 Hiff). lia.
Qed.

(** ** fs_mgr_is_partition_encrypted: the marker and the failures *)

Lemma first_char_slash (kl : string) :
  first_char kl = "/"%char -> exists rest, kl = String "/" rest.
Proof.
  destruct kl as [|c rest]; cbn; intros H; [discriminate H|].
  subst c. now exists rest.
Qed.

Lemma strcmp_footer (kl : string) :
  c_string kl -> strcmp kl CRYPT_KEY_IN_FOOTER = 0 -> kl = "footer".
Proof.
  intros Hc H. apply strcmp_eq; auto.
  unfold c_string, CRYPT_KEY_IN_FOOTER. simpl. intuition discriminate.
Qed.

Lemma magic_was_read_bytes (got : option (list byte)) :
  magic_was_read got = true <->
  exists b0 b1 b2 b3,
    got = Some [b0; b1; b2; b3] /\
    Z.of_N (to_N b0) + 256 * Z.of_N (to_N b1) + 65536 * Z.of_N (to_N b2)
    + 16777216 * Z.of_N (to_N b3) = CRYPT_MAGIC.
Proof.
  rewrite magic_was_read_spec. split.
  - intros (bytes & -> & Hl & Hm).
    destruct bytes as [|b0 [|b1 [|b2 [|b3 [|b4 rest]]]]]; try discriminate Hl.
    exists b0, b1, b2, b3. split; [reflexivity|].
    apply (le32_at_bytes [b0; b1; b2; b3] 0 CRYPT_MAGIC) in Hm;
      [|lia|cbn; lia].
    destruct Hm as (c0 & c1 & c2 & c3 & H0 & H1 & H2 & H3 & Hsum).
    cbn in H0, H1, H2, H3.
    inversion H0; inversion H1; inversion H2; inversion H3; subst.
    exact Hsum.
  - intros (b0 & b1 & b2 & b3 & -> & Hsum).
    exists [b0; b1; b2; b3]. split; [reflexivity|]. split; [reflexivity|].
    apply le32_at_bytes; [lia|cbn; lia|].
    exists b0, b1, b2, b3. cbn. auto.
Qed.

Lemma magic_not_read_when_short (got : option (list byte)) :
  (forall bytes, got = Some bytes -> List.length bytes <> 4%nat) ->
  magic_was_read got = false.
Proof.
  intros H. destruct got as [bytes|]; [|reflexivity]. cbn.
  specialize (H bytes eq_refl). apply Nat.eqb_neq in H. now rewrite H.
Qed.

(** C5: [fs_mgr_is_partition_encrypted], for a descriptor whose key
    location is a C string whenever it is encryptable.  (1) The result is 0
    or 1, never anything else.  (2) It is 1 exactly when a read delivered
    four bytes [b0 b1 b2 b3] that are the magic 0xD0B5B1C4, least
    significant byte first.  (3) A read is made only on one of two runs,
    both through a descriptor that [open] delivered: the key location
    begins with '/' and the run is open of that file, read of 4 bytes,
    close; or the key location is "footer" and the run is open of the block
    device, size query answered with other than -1, seek to
    [sectors * 512 - CRYPT_FOOTER_OFFSET] answered with other than -1, read
    of 4 bytes, close.  (4) A failed open gives 0 and ends the run; a
    failed size query, a failed seek, a failed or short read give 0. *)
Theorem encrypted_iff_magic_at_location :
  forall (fstab : fstab_rec),
    0 <= CRYPT_FOOTER_OFFSET < 2 ^ 63 ->
    (fs_mgr_is_encryptable fstab = true ->
     exists kl, key_loc fstab = Some kl /\ c_string kl) ->
    let r := result_of (fs_mgr_is_partition_encrypted fstab) in
    let tr := trace_of (fs_mgr_is_partition_encrypted fstab) in
    (r = Returns 0 \/ r = Returns 1)
    /\
    (r = Returns 1 <->
     exists fd b0 b1 b2 b3,
       In (EvRead fd 4 (Some [b0; b1; b2; b3])) tr /\
       Z.of_N (to_N b0) + 256 * Z.of_N (to_N b1) + 65536 * Z.of_N (to_N b2)
       + 16777216 * Z.of_N (to_N b3) = CRYPT_MAGIC)
    /\
    (forall fd n got,
        In (EvRead fd n got) tr ->
        n = 4%nat /\ 0 <= fd /\
        ((exists rest,
             key_loc fstab = Some (String "/" rest) /\
             tr = [EvOpen (String "/" rest) O_RDWR fd; EvRead fd 4 got;
                   EvClose fd])
         \/
         (key_loc fstab = Some "footer" /\
          exists r0 nr r',
            r0 <> -1 /\ r' <> -1 /\ 0 <= nr < 2 ^ 32 /\
            tr = [EvOpen (blk_device fstab) O_RDWR fd;
                  EvBlkGetSize fd r0 nr;
                  EvLseek64 fd (nr * 512 - CRYPT_FOOTER_OFFSET) r';
                  EvRead fd 4 got; EvClose fd])))
    /\
    (forall path flag fd,
        In (EvOpen path flag fd) tr -> fd < 0 ->
        r = Returns 0 /\ tr = [EvOpen path flag fd])
    /\
    (forall fd nr, In (EvBlkGetSize fd (-1) nr) tr -> r = Returns 0)
    /\
    (forall fd off, In (EvLseek64 fd off (-1)) tr -> r = Returns 0)
    /\
    (forall fd n got,
        In (EvRead fd n got) tr ->
        (forall bytes, got = Some bytes -> List.length bytes <> 4%nat) ->
        r = Returns 0).
Proof.
  intros fstab Hcfo Hkey r tr. subst r tr. unfold result_of, trace_of.
  destruct (fs_mgr_is_encryptable fstab) eqn:Henc.
  2:{ unfold fs_mgr_is_partition_encrypted. rewrite Henc.
      cbn [negb pure fst snd].
      split; [now left|]. split.
      { split; [discriminate|]. intros (fd & b0 & b1 & b2 & b3 & [] & _). }
      repeat split; intros; contradiction. }
  destruct (Hkey eq_refl) as (kl0 & Hkl0 & Hc).
  destruct (encrypted_runs fstab []) as (r & ext & Hrun & Hshape).
  rewrite Hrun. cbn [fst snd app].
  assert (Hoff : forall nr, 0 <= nr < two_p32 ->
                            sint64 (nr * 512 - CRYPT_FOOTER_OFFSET)
                            = nr * 512 - CRYPT_FOOTER_OFFSET).
  { intros nr Hnr. apply sint64_small. unfold two_p32 in Hnr. lia. }
  assert (Hflag : forall got : option (list byte),
             (Returns (if magic_was_read got then 1 else 0) = Returns 0 \/
              Returns (if magic_was_read got then 1 else 0) = Returns 1) /\
             (Returns (if magic_was_read got then 1 else 0) = Returns 1 <->
              magic_was_read got = true)).
  { intros got. destruct (magic_was_read got); split; auto;
      split; auto; discriminate. }
  assert (Hnone : forall ext' : trace,
             (forall fd n got, ~ In (EvRead fd n got) ext') ->
             (Returns 0 = Returns 1 <->
              exists fd b0 b1 b2 b3,
                In (EvRead fd 4 (Some [b0; b1; b2; b3])) ext' /\
                Z.of_N (to_N b0) + 256 * Z.of_N (to_N b1)
                + 65536 * Z.of_N (to_N b2) + 16777216 * Z.of_N (to_N b3)
                = CRYPT_MAGIC)).
  { intros ext' Hno. split; [discriminate|].
    intros (fd & b0 & b1 & b2 & b3 & H & _). exfalso. exact (Hno _ _ _ H). }
  destruct Hshape as [Hne
                     |He Hk
                     |kl fd Hk Hs Hfd
                     |kl fd got Hk Hs Hfd
                     |kl fd Hk Hf Hfd
                     |kl fd nr Hk Hf Hfd
                     |kl fd r0 nr Hk Hf Hfd Hr0 Hnr
                     |kl fd r0 nr r' got Hk Hf Hfd Hr0 Hnr Hr'
                     |kl Hk Hs Hf];
    try congruence;
    rewrite Hkl0 in Hk; inversion Hk; subst kl0; clear Hk.
  - (* key file, open fails *)
    split; [now left|].
    split; [apply Hnone; intros fd' n got H; in_trace H|].
    split; [intros fd' n got H; in_trace H|].
    split; [intros p fl fd' H Hneg; in_trace H; inversion H; subst; auto|].
    split; [intros fd' nr H; in_trace H|].
    split; [intros fd' off H; in_trace H|].
    intros fd' n got H; in_trace H.
  - (* key file, read *)
    destruct (first_char_slash kl Hs) as [rest ->].
    destruct (Hflag got) as [H01 Hiff].
    split; [exact H01|]. split.
    { rewrite Hiff, magic_was_read_bytes. split.
      - intros (b0 & b1 & b2 & b3 & -> & Hsum).
        exists fd, b0, b1, b2, b3. split; [simpl; auto|exact Hsum].
      - intros (fd' & b0 & b1 & b2 & b3 & H & Hsum). in_trace H.
        inversion H; subst. exists b0, b1, b2, b3. auto. }
    split.
    { intros fd' n got' H. in_trace H. inversion H; subst.
      split; [reflexivity|]. split; [exact Hfd|]. left. exists rest. auto. }
    split; [intros p fl fd' H Hneg; in_trace H; inversion H; subst; lia|].
    split; [intros fd' nr H; in_trace H|].
    split; [intros fd' off H; in_trace H|].
    intros fd' n got' H Hshort. in_trace H. inversion H; subst.
    now rewrite (magic_not_read_when_short got' Hshort).
  - (* footer, open fails *)
    split; [now left|].
    split; [apply Hnone; intros fd' n got H; in_trace H|].
    split; [intros fd' n got H; in_trace H|].
    split; [intros p fl fd' H Hneg; in_trace H; inversion H; subst; auto|].
    split; [intros fd' nr H; in_trace H|].
    split; [intros fd' off H; in_trace H|].
    intros fd' n got H; in_trace H.
  - (* footer, size query fails *)
    split; [now left|].
    split; [apply Hnone; intros fd' n got H; in_trace H|].
    split; [intros fd' n got H; in_trace H|].
    split; [intros p fl fd' H Hneg; in_trace H; inversion H; subst; lia|].
    repeat split; intros; reflexivity.
  - (* footer, seek fails *)
    split; [now left|].
    split; [apply Hnone; intros fd' n got H; in_trace H|].
    split; [intros fd' n got H; in_trace H|].
    split; [intros p fl fd' H Hneg; in_trace H; inversion H; subst; lia|].
    repeat split; intros; reflexivity.
  - (* footer, read *)
    pose proof (strcmp_footer kl Hc Hf) as ->.
    rewrite (Hoff nr Hnr).
    destruct (Hflag got) as [H01 Hiff].
    split; [exact H01|]. split.
    { rewrite Hiff, magic_was_read_bytes. split.
      - intros (b0 & b1 & b2 & b3 & -> & Hsum).
        exists fd, b0, b1, b2, b3. split; [simpl; auto 6|exact Hsum].
      - intros (fd' & b0 & b1 & b2 & b3 & H & Hsum). in_trace H.
        inversion H; subst. exists b0, b1, b2, b3. auto. }
    split.
    { intros fd' n got' H. in_trace H. inversion H; subst.
      split; [reflexivity|]. split; [exact Hfd|]. right.
      split; [exact Hkl0|]. exists r0, nr, r'.
      unfold two_p32 in Hnr. auto. }
    split; [intros p fl fd' H Hneg; in_trace H; inversion H; subst; lia|].
    split; [intros fd' nr' H; in_trace H; inversion H; subst; congruence|].
    split; [intros fd' off H; in_trace H; inversion H; subst; congruence|].
    intros fd' n got' H Hshort. in_trace H. inversion H; subst.
    now rewrite (magic_not_read_when_short got' Hshort).
  - (* neither a path nor "footer" *)
    split; [now left|].
    split; [apply Hnone; intros fd' n got H; in_trace H|].
    repeat split; intros; contradiction.
Qed.

(** ** format_f2fs: the arguments and the status *)



(** ** A device shorter than the footer region *)


(** ** The wait loop: when it ends *)



(** ** Blank devices and the wipe *)

(** X6: a block of zero bytes that covers the probed window (a freshly
    wiped device, say) is recognized neither as f2fs nor as ext4, for
    every layout of the ext4 superblock that tiles the window. *)
Theorem blank_block_matches_nothing :
  forall n : nat,
    (Z.to_nat 8192 <= n)%nat ->
    superblocks_tile_the_window ->
    is_f2fs (repeat x00 n) = 0 /\ is_ext4 (repeat x00 n) = Some 0.
Proof.
  intros n _ _. split.
  - destruct (is_f2fs_spec (repeat x00 n)) as [[H|H] Hiff]; [exact H|].
    apply Hiff in H. destruct H as (i & _ & Hm).
    unfold le32_at in Hm. rewrite !byte_at_blank in Hm. discriminate Hm.
  - destruct (is_ext4_spec (repeat x00 n)) as (r & Hr & [H|H] & Hiff);
      [now subst r|].
    apply Hiff in H. destruct H as (k & _ & _ & Hm).
    unfold le16_at in Hm. rewrite !byte_at_blank in Hm. discriminate Hm.
Qed.

(** X9: [format_ext4] touches the content of the device itself only to
    wipe the footer.  When no footer is needed, or the open or the size
    query failed, it neither seeks nor writes.  When a footer is needed and
    the size query succeeded with [nr] sectors, it seeks exactly once, to
    [nr * 512 - CRYPT_FOOTER_OFFSET]; if that seek is refused it writes
    nothing, and if it is accepted it writes exactly once:
    [sizeof(struct crypt_mnt_ftr)] bytes, all zero. *)
Theorem format_ext4_only_wipes_the_footer :
  forall (blk mnt : string) (nf : bool) (tr0 : trace),
  exists ext,
    snd (format_ext4 blk mnt nf tr0) = tr0 ++ ext /\
    (nf = false -> filter is_wipe_call ext = []) /\
    ((forall fd r nr, In (EvBlkGetSize fd r nr) ext -> r = -1) ->
     filter is_wipe_call ext = []) /\
    (nf = true ->
     forall fd r nr,
       In (EvBlkGetSize fd r nr) ext -> r <> -1 ->
       exists r',
         (r' = -1 /\
          filter is_wipe_call ext
          = [EvLseek64 fd (sint64 (nr * 512 - CRYPT_FOOTER_OFFSET)) r'])
         \/
         (r' <> -1 /\
          exists w,
            filter is_wipe_call ext
            = [EvLseek64 fd (sint64 (nr * 512 - CRYPT_FOOTER_OFFSET)) r';
               EvWrite fd (repeat x00 sizeof_crypt_mnt_ftr) w])).
Proof.
  intros blk mnt nf tr0.
  destruct (format_ext4_runs blk mnt nf tr0) as (rc & ext & Hrun & Hshape).
  exists ext. rewrite Hrun. split; [reflexivity|].
  destruct Hshape as [nf fd' Hfd
                     |nf fd' nr' Hfd
                     |fd' r0 nr' Hfd Hr0 Hnr
                     |fd' r0 nr' r' w rc' Hfd Hr0 Hnr Hr'
                     |fd' r0 nr' rc' Hfd Hr0 Hnr].
  - rewrite filter_app, filter_blksize_events by reflexivity.
    cbn [app filter is_wipe_call].
    split; [reflexivity|]. split; [reflexivity|].
    intros _ fd r nr H. in_run H.
  - rewrite filter_app, filter_blksize_events by reflexivity.
    cbn [app filter is_wipe_call].
    split; [reflexivity|]. split; [reflexivity|].
    intros _ fd r nr H Hr. in_run H. inversion H; subst. congruence.
  - rewrite filter_app, filter_blksize_events by reflexivity.
    cbn [app filter is_wipe_call].
    split; [discriminate|]. split.
    + intros Hall. exfalso. apply Hr0. apply (Hall fd' r0 nr').
      apply in_or_app. right. simpl. auto.
    + intros _ fd r nr H Hr. in_run H. inversion H; subst.
      exists (-1). left. split; reflexivity.
  - assert (Hf : filter is_wipe_call
                   (blksize_events ++
                    [EvOpen blk O_RDWR fd'; EvBlkGetSize fd' r0 nr';
                     EvLog LOG_INFO "Wiping old crypto info.\n";
                     EvLseek64 fd'
                       (sint64 (nr' * 512 - CRYPT_FOOTER_OFFSET)) r';
                     EvWrite fd' zeroed_crypt_ftr w; EvClose fd';
                     EvResetExt4fsInfo;
                     EvMakeExt4fs fd' (nr' * 512) mnt rc'] ++
                    builder_log rc' ++ [EvClose fd'])
                 = [EvLseek64 fd'
                      (sint64 (nr' * 512 - CRYPT_FOOTER_OFFSET)) r';
                    EvWrite fd' (repeat x00 sizeof_crypt_mnt_ftr) w]).
    { unfold builder_log.
      rewrite filter_app, filter_blksize_events by reflexivity.
      destruct (negb (rc' =? 0)); reflexivity. }
    rewrite Hf. split; [discriminate|]. split.
    + intros Hall. exfalso. apply Hr0. apply (Hall fd' r0 nr').
      apply in_or_app. right. simpl. auto.
    + intros _ fd r nr H Hr. in_run H; inversion H; subst;
        exists r'; right; (split; [exact Hr'|]); exists w; reflexivity.
  - assert (Hf : filter is_wipe_call
                   (blksize_events ++
                    [EvOpen blk O_RDWR fd'; EvBlkGetSize fd' r0 nr';
                     EvClose fd'; EvResetExt4fsInfo;
                     EvMakeExt4fs fd' (nr' * 512) mnt rc'] ++
                    builder_log rc' ++ [EvClose fd']) = []).
    { unfold builder_log.
      rewrite filter_app, filter_blksize_events by reflexivity.
      destruct (negb (rc' =? 0)); reflexivity. }
    rewrite Hf. split; [reflexivity|]. split; [reflexivity|].
    intros Hnf. discriminate Hnf.
Qed.

End Program.

(** ** Worked examples on concrete machines *)

(** C1: on a 1 MiB device (2048 sectors) whose descriptor asks for a
    footer, [fs_mgr_do_format] wipes the footer at [1048576 - 0x4000] and
    then runs the ext4 builder with [info.len = 1048576], the full length
    of the device: not the length less the footer offset, and not the
    length less the size of the footer record. *)
Theorem ext4_builder_is_given_the_full_device_length :
  fs_mgr_do_format footer_offset_0x4000 crypt_mnt_ftr_bytes None
                   (os_of machine_1MiB) 0 data_ext4_footer []
  = (Some (Returns 0),
     [EvLog LOG_ERROR "Formatting %s as '%s'%s.\n";
      EvOpen "/dev/block/userdata" O_RDWR 3; EvBlkGetSize 3 0 2048;
      EvLog LOG_INFO "Wiping old crypto info.\n";
      EvLseek64 3 (2048 * 512 - footer_offset_0x4000)
                (2048 * 512 - footer_offset_0x4000);
      EvWrite 3 (repeat x00 crypt_mnt_ftr_bytes)
              (Z.of_nat crypt_mnt_ftr_bytes);
      EvClose 3; EvResetExt4fsInfo;
      EvMakeExt4fs 3 (2048 * 512) "/data" 0;
      EvClose 3])
  /\ 2048 * 512 <> 2048 * 512 - footer_offset_0x4000
  /\ 2048 * 512 <> 2048 * 512 - Z.of_nat crypt_mnt_ftr_bytes.
Proof.
  split; [vm_compute; reflexivity|].
  split; vm_compute; discriminate.
Qed.

(** C2: on the same device, when the write of the zeroed footer record
    fails (it answers -1), [fs_mgr_do_format] does not stop: the answer of
    [write] is dropped, the ext4 builder runs, and the call reports the
    builder's success. *)
Theorem failed_footer_write_still_reaches_the_builder :
  fs_mgr_do_format footer_offset_0x4000 crypt_mnt_ftr_bytes None
                   (os_of machine_write_fails) 0 data_ext4_footer []
  = (Some (Returns 0),
     [EvLog LOG_ERROR "Formatting %s as '%s'%s.\n";
      EvOpen "/dev/block/userdata" O_RDWR 3; EvBlkGetSize 3 0 2048;
      EvLog LOG_INFO "Wiping old crypto info.\n";
      EvLseek64 3 (2048 * 512 - footer_offset_0x4000)
                (2048 * 512 - footer_offset_0x4000);
      EvWrite 3 (repeat x00 crypt_mnt_ftr_bytes) (-1);
      EvClose 3; EvResetExt4fsInfo;
      EvMakeExt4fs 3 (2048 * 512) "/data" 0;
      EvClose 3]).
Proof. vm_compute. reflexivity. Qed.

Lemma unlisted_key_location_reads_nothing_witness :
  fs_mgr_is_encryptable data_odd_key = true /\
  key_loc data_odd_key = Some "" /\
  c_string "" /\
  first_char "" <> "/"%char /\
  "" <> CRYPT_KEY_IN_FOOTER /\
  fs_mgr_is_partition_encrypted footer_offset_0x4000 (os_of machine_1MiB)
                                data_odd_key []
  = (Returns 0, []).
Proof.
  assert (Hc : c_string "") by (intros H; exact H).
  assert (Hs : first_char "" <> "/"%char) by discriminate.
  assert (Hf : "" <> CRYPT_KEY_IN_FOOTER) by discriminate.
  repeat (split; [first [reflexivity | assumption]|]).
  apply (unlisted_key_location_reads_nothing
           footer_offset_0x4000 (os_of machine_1MiB) data_odd_key "" []);
    first [reflexivity | assumption].
Defined.

Lemma do_format_dispatches_on_type_prefix_witness :
  result_of (fs_mgr_do_format footer_offset_0x4000 crypt_mnt_ftr_bytes None
                              (os_of machine_1MiB) 1 cache_xfs)
  = Some (Returns (-22)) /\
  Forall (fun ev => is_log ev = true)
         (trace_of (fs_mgr_do_format footer_offset_0x4000 crypt_mnt_ftr_bytes
                                     None (os_of machine_1MiB) 1 cache_xfs)).
Proof.
  apply (proj2 (proj2 (do_format_dispatches_on_type_prefix
                         footer_offset_0x4000 crypt_mnt_ftr_bytes None
                         (os_of machine_1MiB) 1 cache_xfs)));
    reflexivity.
Defined.

(** ** More worked examples *)

Lemma identify_fs_rejects_other_types_witness :
  String.prefix "f2fs" (fs_type cache_xfs) = false /\
  String.prefix "ext4" (fs_type cache_xfs) = false /\
  fst (fs_mgr_identify_fs ext4_super_block_bytes s_magic_at false
                          (os_of machine_f2fs) cache_xfs [])
  = Some 255.
Proof.
  split; [reflexivity|]. split; [reflexivity|].
  apply (identify_fs_rejects_other_types
           ext4_super_block_bytes s_magic_at false (os_of machine_f2fs)
           cache_xfs []); reflexivity.
Defined.

Lemma format_ext4_builder_gets_a_closed_descriptor_witness :
  In (EvMakeExt4fs 3 (2048 * 512) "/data" 0)
     (trace_of (format_ext4 footer_offset_0x4000 crypt_mnt_ftr_bytes None
                            (os_of machine_1MiB)
                            "/dev/block/userdata" "/data" true)) /\
  closed_fds (trace_of (format_ext4 footer_offset_0x4000 crypt_mnt_ftr_bytes
                                    None (os_of machine_1MiB)
                                    "/dev/block/userdata" "/data" true))
  = [3; 3].
Proof.
  assert (H : In (EvMakeExt4fs 3 (2048 * 512) "/data" 0)
                 (trace_of (format_ext4 footer_offset_0x4000
                                        crypt_mnt_ftr_bytes None
                                        (os_of machine_1MiB)
                                        "/dev/block/userdata" "/data" true))).
  { vm_compute. auto 10. }
  split; [exact H|].
  destruct (format_ext4_builder_gets_a_closed_descriptor
              footer_offset_0x4000 crypt_mnt_ftr_bytes None
              (os_of machine_1MiB) "/dev/block/userdata" "/data" true
              3 (2048 * 512) "/data" 0 H)
    as (before & after & _ & _ & _ & _ & Hclosed).
  exact Hclosed.
Defined.

Lemma f2fs_wait_maps_exit_code_witness :
  0 <= 1 < 256 /\
  os_waitpid (os_of machine_child_fails) [EvFork 77] 77 = (77, Some (1 * 256))
  /\
  f2fs_wait (os_of machine_child_fails) 1 77 0 [EvFork 77]
  = (Some (-1),
     [EvFork 77; EvWaitpid 77 77 (Some 256);
      EvLog LOG_INFO "%s done, status %d\n"]).
Proof.
  assert (H1 : 0 <= 1 < 256) by lia.
  assert (H2 : os_waitpid (os_of machine_child_fails) [EvFork 77] 77
               = (77, Some (1 * 256))) by reflexivity.
  split; [exact H1|]. split; [exact H2|].
  exact (f2fs_wait_maps_exit_code (os_of machine_child_fails) 0 77 0 1
                                  [EvFork 77] H1 H2).
Defined.

Lemma f2fs_wait_killed_child_fails_witness :
  1 <= 9 < 127 /\
  fst (f2fs_wait (os_of machine_child_killed) 2 77 0 [EvFork 77])
  = Some (-1) /\
  nwaits (snd (f2fs_wait (os_of machine_child_killed) 2 77 0 [EvFork 77]))
  = (nwaits [EvFork 77] + 2)%nat.
Proof.
  assert (H1 : 1 <= 9 < 127) by lia.
  split; [exact H1|].
  apply (f2fs_wait_killed_child_fails (os_of machine_child_killed) 0 77 0 9
                                      [EvFork 77] H1).
  - reflexivity.
  - vm_compute. discriminate.
Defined.

Lemma format_f2fs_reports_success_when_fork_fails_witness :
  os_fork (os_of machine_fork_fails) [] = -1 /\
  format_f2fs footer_offset_0x4000 (os_of machine_fork_fails) 1
              "/dev/block/userdata" false []
  = (Some (Returns 0),
     [EvFork (-1); EvWaitpid (-1) (-1) None;
      EvLog LOG_INFO "%s done, status %d\n"]).
Proof.
  split; [reflexivity|].
  apply (format_f2fs_reports_success_when_fork_fails
           footer_offset_0x4000 (os_of machine_fork_fails) 0
           "/dev/block/userdata" false []); reflexivity.
Defined.

Lemma wipe_and_probe_agree_on_the_footer_witness :
  (4 <= crypt_mnt_ftr_bytes)%nat /\
  exists ext1 ext2,
    snd (format_ext4 footer_offset_0x4000 crypt_mnt_ftr_bytes None
                     (os_of machine_1MiB) "/dev/block/userdata" "/data"
                     true [])
    = [] ++ ext1 /\
    snd (fs_mgr_is_partition_encrypted footer_offset_0x4000
                                       (os_of machine_1MiB)
                                       data_ext4_footer [])
    = [] ++ ext2 /\
    (forall fd buf w,
        In (EvWrite fd buf w) ext1 ->
        firstn 4 buf = [x00; x00; x00; x00] /\ le32_at buf 0 <> CRYPT_MAGIC).
Proof.
  assert (H : (4 <= crypt_mnt_ftr_bytes)%nat).
  { unfold crypt_mnt_ftr_bytes. lia. }
  split; [exact H|].
  destruct (wipe_and_probe_agree_on_the_footer
              footer_offset_0x4000 crypt_mnt_ftr_bytes None
              (os_of machine_1MiB) data_ext4_footer
              "/dev/block/userdata" "/data" true [] [] H)
    as (ext1 & ext2 & H1 & H2 & _ & H4).
  exists ext1, ext2. auto.
Defined.

Lemma do_format_without_footer_key_witness :
  (forall kl, key_loc data_f2fs_plain = Some kl ->
              c_string kl /\ kl <> CRYPT_KEY_IN_FOOTER) /\
  In (EvExecv "/sbin/mkfs.f2fs"
              ["/sbin/mkfs.f2fs"; "-r"; "0"; "/dev/block/userdata"] true)
     (trace_of (fs_mgr_do_format footer_offset_0x4000 crypt_mnt_ftr_bytes
                                 None (os_of machine_in_child) 1
                                 data_f2fs_plain)) /\
  Forall (fun ev => is_wipe_call ev = false)
         (trace_of (fs_mgr_do_format footer_offset_0x4000 crypt_mnt_ftr_bytes
                                     None (os_of machine_in_child) 1
                                     data_f2fs_plain)).
Proof.
  assert (H : forall kl, key_loc data_f2fs_plain = Some kl ->
                         c_string kl /\ kl <> CRYPT_KEY_IN_FOOTER).
  { intros kl Hkl. discriminate Hkl. }
  split; [exact H|]. split; [vm_compute; auto|].
  exact (proj1 (do_format_without_footer_key
                  footer_offset_0x4000 crypt_mnt_ftr_bytes None
                  (os_of machine_in_child) 1 data_f2fs_plain H)).
Defined.

Lemma format_ext4_seek_failure_aborts_witness :
  In (EvLseek64 3 (8 * 512 - footer_offset_0x4000) (-1))
     (trace_of (format_ext4 footer_offset_0x4000 crypt_mnt_ftr_bytes None
                            (os_of machine_4KiB)
                            "/dev/block/userdata" "/data" true)) /\
  result_of (format_ext4 footer_offset_0x4000 crypt_mnt_ftr_bytes None
                         (os_of machine_4KiB)
                         "/dev/block/userdata" "/data" true) = -1.
Proof.
  assert (H : In (EvLseek64 3 (8 * 512 - footer_offset_0x4000) (-1))
                 (trace_of (format_ext4 footer_offset_0x4000
                                        crypt_mnt_ftr_bytes None
                                        (os_of machine_4KiB)
                                        "/dev/block/userdata" "/data" true))).
  { vm_compute. auto 10. }
  split; [exact H|].
  exact (proj1 (format_ext4_seek_failure_aborts
                  footer_offset_0x4000 crypt_mnt_ftr_bytes None
                  (os_of machine_4KiB) "/dev/block/userdata" "/data" true
                  3 (8 * 512 - footer_offset_0x4000) H)).
Defined.

(** ** Worked examples for the claims on loads, arguments and waits *)

Lemma identify_f2fs_iff_magic_in_a_sector_witness :
  String.prefix "f2fs" (fs_type data_f2fs_plain) = true /\
  List.length f2fs_block = Z.to_nat 8192 /\
  List.length ext4_block = Z.to_nat 8192 /\
  result_of (fs_mgr_identify_fs ext4_super_block_bytes s_magic_at false
                                (os_of machine_f2fs) data_f2fs_plain)
  = Some 0 /\
  result_of (fs_mgr_identify_fs ext4_super_block_bytes s_magic_at false
                                (os_of machine_ext4) data_f2fs_plain)
  = Some 255.
Proof.
  split; [reflexivity|]. split; [reflexivity|]. split; [reflexivity|].
  split.
  - destruct (identify_f2fs_iff_magic_in_a_sector
                ext4_super_block_bytes s_magic_at false (os_of machine_f2fs)
                data_f2fs_plain 3 f2fs_block)
      as (rc & Hrc & _ & Hiff).
    + reflexivity.
    + vm_compute. right. right. left. reflexivity.
    + reflexivity.
    + rewrite Hrc. f_equal. apply Hiff.
      exists 2%nat, x10, x20, xf5, xf2.
      split; [lia|]. repeat split; reflexivity.
  - destruct (identify_f2fs_iff_magic_in_a_sector
                ext4_super_block_bytes s_magic_at false (os_of machine_ext4)
                data_f2fs_plain 3 ext4_block)
      as (rc & Hrc & [H0|H255] & Hiff).
    + reflexivity.
    + vm_compute. right. right. left. reflexivity.
    + reflexivity.
    + exfalso. apply Hiff in H0.
      destruct H0 as (i & b0 & b1 & b2 & b3 & Hi & H0 & H1 & H2 & H3 & Hsum).
      do 16 (destruct i as [|i];
             [vm_compute in H0, H1, H2, H3;
              inversion H0; inversion H1; inversion H2; inversion H3;
              subst; vm_compute in Hsum; discriminate Hsum|]).
      lia.
    + rewrite Hrc, H255. reflexivity.
Defined.

Lemma identify_ext4_iff_magic_in_a_superblock_witness :
  superblocks_tile_the_window ext4_super_block_bytes s_magic_at /\
  String.prefix "ext4" (fs_type data_ext4_footer) = true /\
  List.length ext4_block = Z.to_nat 8192 /\
  List.length f2fs_block = Z.to_nat 8192 /\
  result_of (fs_mgr_identify_fs ext4_super_block_bytes s_magic_at false
                                (os_of machine_ext4) data_ext4_footer)
  = Some 0 /\
  result_of (fs_mgr_identify_fs ext4_super_block_bytes s_magic_at false
                                (os_of machine_f2fs) data_ext4_footer)
  = Some 255.
Proof.
  assert (Htile : superblocks_tile_the_window ext4_super_block_bytes
                                              s_magic_at).
  { split; [discriminate|]. split; [discriminate|]. exists 8. reflexivity. }
  split; [exact Htile|].
  split; [reflexivity|]. split; [reflexivity|]. split; [reflexivity|].
  split.
  - destruct (identify_ext4_iff_magic_in_a_superblock
                ext4_super_block_bytes s_magic_at false (os_of machine_ext4)
                data_ext4_footer 3 ext4_block Htile)
      as (rc & Hrc & _ & Hiff).
    + reflexivity.
    + vm_compute. right. right. left. reflexivity.
    + reflexivity.
    + rewrite Hrc. f_equal. apply Hiff.
      exists 1, x53, xef.
      split; [lia|]. repeat split; reflexivity.
  - destruct (identify_ext4_iff_magic_in_a_superblock
                ext4_super_block_bytes s_magic_at false (os_of machine_f2fs)
                data_ext4_footer 3 f2fs_block Htile)
      as (rc & Hrc & [H0|H255] & Hiff).
    + reflexivity.
    + vm_compute. right. right. left. reflexivity.
    + reflexivity.
    + exfalso. apply Hiff in H0.
      destruct H0 as (k & b0 & b1 & Hk & Hlt & H0 & H1 & Hsum).
      unfold ext4_super_block_bytes in Hlt.
      assert (Hcases : k = 0 \/ k = 1 \/ k = 2 \/ k = 3 \/ k = 4 \/ k = 5
                       \/ k = 6 \/ k = 7) by lia.
      repeat (destruct Hcases as [Hcases|Hcases];
              [subst k; vm_compute in H0, H1; inversion H0; inversion H1;
               subst; vm_compute in Hsum; discriminate Hsum|]).
      subst k; vm_compute in H0, H1; inversion H0; inversion H1;
        subst; vm_compute in Hsum; discriminate Hsum.
    + rewrite Hrc, H255. reflexivity.
Defined.

Lemma encrypted_iff_magic_at_location_witness :
  0 <= footer_offset_0x4000 < 2 ^ 63 /\
  (fs_mgr_is_encryptable data_ext4_footer = true ->
   exists kl, key_loc data_ext4_footer = Some kl /\ c_string kl) /\
  (fs_mgr_is_encryptable data_keyfile = true ->
   exists kl, key_loc data_keyfile = Some kl /\ c_string kl) /\
  result_of (fs_mgr_is_partition_encrypted footer_offset_0x4000
                                           (os_of machine_1MiB)
                                           data_ext4_footer)
  = Returns 1 /\
  result_of (fs_mgr_is_partition_encrypted footer_offset_0x4000
                                           (os_of machine_1MiB)
                                           data_keyfile)
  = Returns 1 /\
  result_of (fs_mgr_is_partition_encrypted footer_offset_0x4000
                                           (os_of machine_4KiB)
                                           data_ext4_footer)
  = Returns 0 /\
  result_of (fs_mgr_is_partition_encrypted footer_offset_0x4000
                                           (os_of machine_f2fs)
                                           data_keyfile)
  = Returns 0.
Proof.
  assert (Hcfo : 0 <= footer_offset_0x4000 < 2 ^ 63).
  { split; [discriminate | reflexivity]. }
  assert (Hfooter : fs_mgr_is_encryptable data_ext4_footer = true ->
                    exists kl, key_loc data_ext4_footer = Some kl /\
                               c_string kl).
  { intros _. exists "footer". split; [reflexivity|].
    unfold c_string. simpl. intuition discriminate. }
  assert (Hfile : fs_mgr_is_encryptable data_keyfile = true ->
                  exists kl, key_loc data_keyfile = Some kl /\ c_string kl).
  { intros _. exists "/dev/block/metadata". split; [reflexivity|].
    unfold c_string. simpl. intuition discriminate. }
  split; [exact Hcfo|]. split; [exact Hfooter|]. split; [exact Hfile|].
  split; [|split; [|split]].
  - apply (proj2 (proj1 (proj2 (encrypted_iff_magic_at_location
                                  footer_offset_0x4000 (os_of machine_1MiB)
                                  data_ext4_footer Hcfo Hfooter)))).
    exists 3, xc4, xb1, xb5, xd0.
    split; [vm_compute; auto 6 | reflexivity].
  - apply (proj2 (proj1 (proj2 (encrypted_iff_magic_at_location
                                  footer_offset_0x4000 (os_of machine_1MiB)
                                  data_keyfile Hcfo Hfile)))).
    exists 3, xc4, xb1, xb5, xd0.
    split; [vm_compute; auto 6 | reflexivity].
  - destruct (encrypted_iff_magic_at_location
                footer_offset_0x4000 (os_of machine_4KiB)
                data_ext4_footer Hcfo Hfooter)
      as (_ & _ & _ & _ & _ & Hseek & _).
    apply (Hseek 3 (8 * 512 - footer_offset_0x4000)).
    vm_compute. auto.
  - destruct (encrypted_iff_magic_at_location
                footer_offset_0x4000 (os_of machine_f2fs)
                data_keyfile Hcfo Hfile)
      as ([H0|H1] & Hiff & _); [exact H0|].
    exfalso. apply Hiff in H1.
    destruct H1 as (fd & b0 & b1 & b2 & b3 & Hin & Hsum).
    vm_compute in Hin.
    destruct Hin as [Hin|[Hin|[Hin|[]]]]; try discriminate Hin.
    inversion Hin; subst. vm_compute in Hsum. discriminate Hsum.
Defined.






Lemma blank_block_matches_nothing_witness :
  (Z.to_nat 8192 <= Z.to_nat 8192)%nat /\
  superblocks_tile_the_window ext4_super_block_bytes s_magic_at /\
  is_f2fs blank_block = 0 /\
  is_ext4 ext4_super_block_bytes s_magic_at blank_block = Some 0.
Proof.
  assert (Hn : (Z.to_nat 8192 <= Z.to_nat 8192)%nat) by apply Nat.le_refl.
  assert (Htile : superblocks_tile_the_window ext4_super_block_bytes
                                              s_magic_at).
  { split; [discriminate|]. split; [discriminate|]. exists 8. reflexivity. }
  split; [exact Hn|]. split; [exact Htile|].
  exact (blank_block_matches_nothing ext4_super_block_bytes s_magic_at
                                     (Z.to_nat 8192) Hn Htile).
Defined.

Lemma format_ext4_only_wipes_the_footer_witness :
  exists r' w,
    r' <> -1 /\
    filter is_wipe_call
           (snd (format_ext4 footer_offset_0x4000 crypt_mnt_ftr_bytes None
                             (os_of machine_1MiB)
                             "/dev/block/userdata" "/data" true []))
    = [EvLseek64 3 1032192 r'; EvWrite 3 (repeat x00 crypt_mnt_ftr_bytes) w].
Proof.
  destruct (format_ext4_only_wipes_the_footer
              footer_offset_0x4000 crypt_mnt_ftr_bytes None
              (os_of machine_1MiB) "/dev/block/userdata" "/data" true [])
    as (ext & Hrun & _ & _ & Hwipe).
  cbn [app] in Hrun. rewrite Hrun.
  destruct (Hwipe eq_refl 3 0 2048) as (r' & [[Hr' Hf]|[Hr' (w & Hf)]]).
  - rewrite <- Hrun. vm_compute. auto 10.
  - discriminate.
  - exfalso. rewrite <- Hrun in Hf. vm_compute in Hf. congruence.
  - exists r', w. split; [exact Hr' | exact Hf].
Defined.
